(** * apex-backtester: the data acquisition and caching pipeline

    A shallow embedding of [core/dataloader/exceptions.py],
    [core/dataloader/base.py] and [core/dataloader/binance.py], and the
    properties of the loader stated against it.

    Conventions of the embedding.
    - A pandas [DataFrame] is an index of timestamps and a list of labelled,
      typed columns.  Column labels are taken to be distinct and every column
      as long as the index ([wf_frame]).
    - An exception is identified by its class; messages are not carried.  The
      classes are those below [Exception]: what [except Exception] ranges
      over.  Interrupts and task cancellation (below [BaseException] only)
      are asynchronous signals and are outside the model.
    - The cache directory, the provider call log and the logger are one
      explicit [world], threaded by a state-and-error monad [M].
    - [asyncio] tasks are run to completion one after the other in creation
      order; interleavings are not modelled. *)

From Stdlib Require Import ZArith QArith List String Ascii Bool Lia.
From stdpp Require Import base strings gmap list pretty.

Local Open Scope string_scope.
Local Open Scope Z_scope.
Local Open Scope list_scope.

(** ** Exceptions: core/dataloader/exceptions.py *)

Inductive exn : Type :=
| DataLoaderError
| NetworkError
| DataValidationError
| CacheError
| TypeError
| ValueError
| OtherException (name : string).

(** [isinstance(e, DataLoaderError)]: the base class and its three subclasses. *)
Definition is_DataLoaderError (e : exn) : bool :=
  match e with
  | DataLoaderError | NetworkError | DataValidationError | CacheError => true
  | _ => false
  end.

(** [isinstance(e, CacheError)]: the class has no subclass. *)
Definition is_CacheError (e : exn) : bool :=
  match e with CacheError => true | _ => false end.

(** [isinstance(e, DataValidationError)]. *)
Definition is_DataValidationError (e : exn) : bool :=
  match e with DataValidationError => true | _ => false end.

(** [isinstance(e, Exception)]: every modelled class. *)
Definition is_Exception (e : exn) : bool := true.

(** The outcome of a call: a value or a raised exception. *)
Inductive result (A : Type) : Type :=
| Ok (a : A)
| Raise (e : exn).
Arguments Ok {A} a.
Arguments Raise {A} e.

Definition is_ok {A} (r : result A) : bool :=
  match r with Ok _ => true | Raise _ => false end.

Definition is_raise {A} (r : result A) : bool := negb (is_ok r).

(** ** Values held by a frame *)

(** A float64 cell. *)
Inductive float64 : Type :=
| NaN
| Inf (negative : bool)
| Fin (q : Q).

Definition float_isna (x : float64) : bool :=
  match x with NaN => true | _ => false end.

(** [x < 0]; a comparison with NaN is false. *)
Definition float_lt0 (x : float64) : bool :=
  match x with
  | NaN => false
  | Inf negative => negative
  | Fin q => Qnum q <? 0
  end.

(** A Python object held by an object column or delivered by the provider. *)
Inductive pyval : Type :=
| PNone
| PInt (z : Z)
| PFloat (x : float64)
| PStr (s : string).

Definition py_isna (v : pyval) : bool :=
  match v with
  | PNone => true
  | PFloat x => float_isna x
  | _ => false
  end.

(** [v < 0] on an object cell: a string or None against an int raises. *)
Definition py_lt0 (v : pyval) : result bool :=
  match v with
  | PInt z => Ok (z <? 0)
  | PFloat x => Ok (float_lt0 x)
  | PStr _ | PNone => Raise TypeError
  end.

(** An index entry: a timestamp in milliseconds, or NaT. *)
Inductive timestamp : Type :=
| NaT
| Ts (ms : Z).

#[global] Instance timestamp_eq_dec : EqDecision timestamp.
Proof. solve_decision. Defined.

(** A column with its dtype: float64, int64 or object. *)
Inductive column : Type :=
| FloatCol (xs : list float64)
| IntCol (xs : list Z)
| ObjectCol (xs : list pyval).

Record DataFrame : Type := {
  index : list timestamp;
  columns : list (string * column)
}.

Definition column_length (c : column) : nat :=
  match c with
  | FloatCol xs => length xs
  | IntCol xs => length xs
  | ObjectCol xs => length xs
  end.

(** The representation invariant pandas keeps: every column has one cell per
    index entry. *)
Definition wf_frame (df : DataFrame) : Prop :=
  Forall (fun c => column_length c.2 = length (index df)) (columns df).

(** [df[name]], the first column carrying the label. *)
Fixpoint get_column (cols : list (string * column)) (name : string) : option column :=
  match cols with
  | [] => None
  | (n, c) :: rest => if String.eqb n name then Some c else get_column rest name
  end.

(** [df.empty]: some axis has length zero. *)
Definition df_empty (df : DataFrame) : bool :=
  match index df, columns df with
  | [], _ => true
  | _, [] => true
  | _, _ => false
  end.

Definition column_isna_any (c : column) : bool :=
  match c with
  | FloatCol xs => existsb float_isna xs
  | IntCol _ => false
  | ObjectCol xs => existsb py_isna xs
  end.

(** [df.isna().any().any()] *)
Definition df_isna_any (df : DataFrame) : bool :=
  existsb (fun c => column_isna_any c.2) (columns df).

(** [any(v < 0 for v in cells)], raising as soon as one comparison raises:
    pandas compares the whole column before reducing it. *)
Fixpoint object_lt0_any (xs : list pyval) : result bool :=
  match xs with
  | [] => Ok false
  | v :: rest =>
      match py_lt0 v, object_lt0_any rest with
      | Raise e, _ => Raise e
      | _, Raise e => Raise e
      | Ok b, Ok bs => Ok (b || bs)
      end
  end.

Definition column_lt0_any (c : column) : result bool :=
  match c with
  | FloatCol xs => Ok (existsb float_lt0 xs)
  | IntCol xs => Ok (existsb (fun z => z <? 0) xs)
  | ObjectCol xs => object_lt0_any xs
  end.

(** [(df[names] < 0).any().any()]; the labels are known to be present. *)
Fixpoint df_lt0_any (cols : list (string * column)) (names : list string) : result bool :=
  match names with
  | [] => Ok false
  | n :: rest =>
      match get_column cols n with
      | None => Raise (OtherException "KeyError")
      | Some c =>
          match column_lt0_any c, df_lt0_any cols rest with
          | Raise e, _ => Raise e
          | _, Raise e => Raise e
          | Ok b, Ok bs => Ok (b || bs)
          end
      end
  end.

(** [index.duplicated().any()] *)
Fixpoint duplicated_any (ix : list timestamp) : bool :=
  match ix with
  | [] => false
  | t :: rest => bool_decide (t ∈ rest) || duplicated_any rest
  end.

(** [dtype in [float, int]] *)
Definition dtype_is_float_or_int (c : column) : bool :=
  match c with
  | FloatCol _ | IntCol _ => true
  | ObjectCol _ => false
  end.

Definition required_columns : list string :=
  ["open"; "high"; "low"; "close"; "volume"].

(** ** BaseDataLoader._validate_data (base.py, lines 142-162) *)

Definition _validate_data (df : DataFrame) (symbol : string) : result unit :=
  if df_empty df then Raise DataValidationError
  else if negb (forallb (fun n => bool_decide (is_Some (get_column (columns df) n)))
                        required_columns)
  then Raise DataValidationError
  else if df_isna_any df then Raise DataValidationError
  else
    match df_lt0_any (columns df) required_columns with
    | Raise e => Raise e
    | Ok true => Raise DataValidationError
    | Ok false =>
        if duplicated_any (index df) then Raise DataValidationError
        else if negb (forallb
                        (fun n => match get_column (columns df) n with
                                  | Some c => dtype_is_float_or_int c
                                  | None => false
                                  end)
                        required_columns)
        then Raise DataValidationError
        else Ok tt
    end.

(** ** The world the loader acts on *)

(** What a cache file holds: a parquet image of a frame, or bytes that
    [pd.read_parquet] rejects. *)
Inductive blob : Type :=
| Parquet (df : DataFrame)
| Corrupt.

(** Calls that leave the process: file-system probes, reads and writes under
    the cache directory, and provider fetches. *)
Inductive io_event : Type :=
| FsExists (path : string)
| FsRead (path : string)
| FsWrite (path : string)
| ProviderFetch (symbol : string).

Inductive level : Type := DEBUG | INFO | WARNING | ERROR.

Record world : Type := {
  fs : gmap string blob;          (* files by path *)
  write_fails : string -> bool;   (* paths on which [to_parquet] raises *)
  io : list io_event;             (* calls made so far, oldest first *)
  logs : list (level * string)    (* records emitted so far, oldest first *)
}.

(** A computation that reads and updates the world and may raise. *)
Definition M (A : Type) : Type := world -> result A * world.

#[global] Instance M_ret : MRet M := fun A a w => (Ok a, w).

#[global] Instance M_bind : MBind M := fun A B k m w =>
  match m w with
  | (Ok a, w') => k a w'
  | (Raise e, w') => (Raise e, w')
  end.

Definition raise {A} (e : exn) : M A := fun w => (Raise e, w).

(** A pure call that may raise, run inside [M]. *)
Definition lift {A} (r : result A) : M A := fun w => (r, w).

(** [try: body except <classes accepted by handles> as e: handler e] *)
Definition try_except {A} (body : M A) (handles : exn -> bool) (handler : exn -> M A) : M A :=
  fun w =>
    match body w with
    | (Raise e, w') => if handles e then handler e w' else (Raise e, w')
    | done => done
    end.

Definition emit (ev : io_event) : M unit := fun w =>
  (Ok tt, {| fs := fs w; write_fails := write_fails w; io := app (io w) [ev]; logs := logs w |}).

Definition log (lvl : level) (msg : string) : M unit := fun w =>
  (Ok tt, {| fs := fs w; write_fails := write_fails w; io := io w; logs := app (logs w) [(lvl, msg)] |}).

(** [os.path.exists(path)] *)
Definition path_exists (path : string) : M bool := fun w =>
  let '(_, w') := emit (FsExists path) w in
  (Ok (bool_decide (is_Some (fs w !! path))), w').

(** [pd.read_parquet(path)] *)
Definition read_parquet (path : string) : M DataFrame := fun w =>
  let '(_, w') := emit (FsRead path) w in
  match fs w !! path with
  | Some (Parquet df) => (Ok df, w')
  | Some Corrupt => (Raise (OtherException "ArrowInvalid"), w')
  | None => (Raise (OtherException "FileNotFoundError"), w')
  end.

(** [df.to_parquet(path, compression="gzip")]: a failed write leaves the
    files as they were, a successful one stores the frame as it is. *)
Definition to_parquet (df : DataFrame) (path : string) : M unit := fun w =>
  let '(_, w') := emit (FsWrite path) w in
  if write_fails w path then (Raise (OtherException "OSError"), w')
  else (Ok tt, {| fs := <[path := Parquet df]> (fs w'); write_fails := write_fails w';
                  io := io w'; logs := logs w' |}).

(** [os.path.join(a, b)] on POSIX. *)
Definition starts_with_slash (s : string) : bool :=
  match s with
  | String c _ => Ascii.eqb c "/"%char
  | EmptyString => false
  end.

Fixpoint ends_with_slash (s : string) : bool :=
  match s with
  | EmptyString => false
  | String c EmptyString => Ascii.eqb c "/"%char
  | String _ rest => ends_with_slash rest
  end.

Definition path_join (a b : string) : string :=
  if starts_with_slash b then b
  else if String.eqb a "" || ends_with_slash a then a +:+ b
  else a +:+ "/" +:+ b.

(** ** BaseDataLoader (base.py) *)

Record BaseDataLoader : Type := {
  symbols : list string;
  start_date : string;
  end_date : string;
  timeframe : string;
  cache_dir : string
}.

(** The abstract methods a concrete loader supplies. *)
Class DataLoader (L : Type) : Type := {
  base : L -> BaseDataLoader;
  fetch_ohlcv : L -> string -> M DataFrame;
  get_top_liquid_pairs : L -> string -> Z -> M (list string)
}.

(** [_generate_cache_filename] (lines 120-122) *)
Definition _generate_cache_filename (self : BaseDataLoader) (symbol : string) : string :=
  symbol +:+ "_" +:+ timeframe self +:+ "_" +:+ start_date self +:+ "_" +:+ end_date self.

Definition cache_path (self : BaseDataLoader) (filename : string) : string :=
  path_join (cache_dir self) (filename +:+ ".parquet").

(** [_save_to_cache] (lines 124-130) *)
Definition _save_to_cache (self : BaseDataLoader) (data : DataFrame) (filename : string) : M unit :=
  try_except
    (let filepath := cache_path self filename in
     to_parquet data filepath)
    is_Exception
    (fun e => raise CacheError).

(** [_load_from_cache] (lines 132-140) *)
Definition _load_from_cache (self : BaseDataLoader) (filename : string) : M (option DataFrame) :=
  let filepath := cache_path self filename in
  found ← path_exists filepath;
  if found : bool then
    try_except
      (df ← read_parquet filepath; mret (Some df))
      is_Exception
      (fun e => raise CacheError)
  else mret None.

Section Loader.
Context {L : Type} `{DataLoader L}.

(** The second half of [_load_symbol_data] (lines 108-118): fetch, validate,
    store, return. *)
Definition fetch_validate_store (self : L) (symbol filename : string) : M DataFrame :=
  emit (ProviderFetch symbol);;
  fresh_data ← fetch_ohlcv self symbol;
  lift (_validate_data fresh_data symbol);;
  try_except
    (_save_to_cache (base self) fresh_data filename;;
     log DEBUG ("Cached: " +:+ symbol))
    is_CacheError
    (fun e => log WARNING ("Cache write failed for " +:+ symbol));;
  mret fresh_data.

(** [_load_symbol_data] (lines 94-118).  The first [try] block yields
    [Some cached_data] when it returns from the function and [None] when
    control falls through to the fetch. *)
Definition _load_symbol_data (self : L) (symbol : string) : M DataFrame :=
  log DEBUG ("Processing pipeline for " +:+ symbol);;
  let filename := _generate_cache_filename (base self) symbol in
  returned ← try_except
    (cached_data ← _load_from_cache (base self) filename;
     match cached_data with
     | Some df =>
         lift (_validate_data df symbol);;
         log INFO ("Cache hit: " +:+ symbol);;
         mret (Some df)
     | None => mret None
     end)
    is_CacheError
    (fun e => log WARNING ("Cache read failed for " +:+ symbol);; mret None);
  match returned with
  | Some cached_data => mret cached_data
  | None => fetch_validate_store self symbol filename
  end.
End Loader.

(** ** Python dictionaries whose iteration order matters

    Keys are kept in order of first insertion; assigning to a key that is
    present replaces its value in place. *)

Fixpoint dict_set {V : Type} (k : string) (v : V) (d : list (string * V)) : list (string * V) :=
  match d with
  | [] => [(k, v)]
  | (k', v') :: rest =>
      if String.eqb k' k then (k, v) :: rest else (k', v') :: dict_set k v rest
  end.

Fixpoint dict_get {V : Type} (k : string) (d : list (string * V)) : option V :=
  match d with
  | [] => None
  | (k', v') :: rest => if String.eqb k' k then Some v' else dict_get k rest
  end.

(** An [asyncio] task that has run: the outcome [await task] delivers. *)
Definition run_task {A : Type} (m : M A) : M (result A) := fun w =>
  let '(r, w') := m w in (Ok r, w').

Section Orchestrator.
Context {L : Type} `{DataLoader L}.

(** The dict comprehension of lines 67-73, one task per listed symbol. *)
Fixpoint create_tasks (self : L) (syms : list string)
    (tasks : list (string * result DataFrame)) : M (list (string * result DataFrame)) :=
  match syms with
  | [] => mret tasks
  | symbol :: rest =>
      task ← run_task (_load_symbol_data self symbol);
      create_tasks self rest (dict_set symbol task tasks)
  end.

(** The loop of lines 77-85. *)
Fixpoint await_tasks (tasks : list (string * result DataFrame))
    (data : gmap string DataFrame) : M (gmap string DataFrame) :=
  match tasks with
  | [] => mret data
  | (symbol, task) :: rest =>
      data' ← try_except
        (df ← lift task;
         log DEBUG ("Success: " +:+ symbol);;
         mret (<[symbol := df]> data))
        is_Exception
        (fun e =>
           if is_DataLoaderError e
           then log WARNING ("Skipped " +:+ symbol);; mret data
           else log ERROR ("Unexpected error with " +:+ symbol);; mret data);
      await_tasks rest data'
  end.

(** [load_historical_data] (lines 59-92) *)
Definition load_historical_data (self : L) : M (gmap string DataFrame) :=
  let syms := symbols (base self) in
  log INFO ("Starting data load for " +:+ pretty (length syms) +:+ " symbols");;
  match syms with
  | [] =>
      log WARNING "No symbols to load";;
      raise DataLoaderError
  | _ :: _ =>
      tasks ← create_tasks self syms [];
      data ← await_tasks tasks ∅;
      if Nat.eqb (size data) 0 then
        log ERROR "No data loaded for any symbol";;
        raise DataLoaderError
      else
        log INFO ("Completed: " +:+ pretty (size data) +:+ "/" +:+
                  pretty (length syms) +:+ " loaded");;
        mret data
  end.
End Orchestrator.

(** ** BinanceDataLoader (binance.py) *)

#[global] Instance result_ret : MRet result := fun A a => Ok a.

#[global] Instance result_bind : MBind result := fun A B k r =>
  match r with
  | Ok a => k a
  | Raise e => Raise e
  end.

(** [[f(x) for x in xs]], stopping at the first call that raises. *)
Fixpoint map_result {A B : Type} (f : A -> result B) (xs : list A) : result (list B) :=
  match xs with
  | [] => Ok []
  | x :: rest => y ← f x; ys ← map_result f rest; Ok (y :: ys)
  end.

(** The conversions of Python and pandas the loader relies on, one cell at a
    time.  They are parameters of the development: the loader is verified
    for every behaviour of them. *)
Class Conversions : Type := {
  to_numeric : pyval -> float64;              (* pd.to_numeric(_, errors='coerce') *)
  to_datetime_ms : pyval -> result timestamp; (* pd.to_datetime(_, unit="ms") *)
  py_float : pyval -> result float64          (* float(_) *)
}.

Record ticker : Type := {
  ticker_symbol : string;   (* t["symbol"] *)
  quoteVolume : pyval       (* t["quoteVolume"] *)
}.

(** The two calls made on [binance.AsyncClient], with what each returns or
    raises. *)
Record AsyncClient : Type := {
  get_ticker : result (list ticker);
  get_historical_klines : string -> string -> string -> string -> result (list (list pyval))
}.

Record BinanceDataLoader : Type := {
  loader_base : BaseDataLoader;
  base_asset : string;
  pairs_limit : Z;
  client : option AsyncClient   (* None until [__aenter__] has run *)
}.

(** A call on [self.client]; on None the attribute lookup raises. *)
Definition with_client {A : Type} (self : BinanceDataLoader)
    (call : AsyncClient -> result A) : result A :=
  match client self with
  | Some c => call c
  | None => Raise (OtherException "AttributeError")
  end.

Definition KLINES_COLUMNS : list string :=
  ["timestamp"; "open"; "high"; "low"; "close"; "volume";
   "close_time"; "quote_asset_volume"; "trades";
   "taker_base_vol"; "taker_quote_vol"; "ignore"].

Definition numeric_cols : list string := ["open"; "high"; "low"; "close"; "volume"].

(** The width pandas infers for a list of rows: that of the longest. *)
Definition klines_width (klines : list (list pyval)) : nat :=
  foldr (fun r acc => Nat.max (length r) acc) 0%nat klines.

(** [pd.DataFrame(klines, columns=names)] as its rows: short rows are padded
    with None, and a width other than [len(names)] raises. *)
Definition pd_DataFrame (klines : list (list pyval)) (names : list string)
    : result (list (list pyval)) :=
  match klines with
  | [] => Ok []
  | _ :: _ =>
      if Nat.eqb (klines_width klines) (length names)
      then Ok (map (fun r => app r (replicate (length names - length r) PNone)) klines)
      else Raise ValueError
  end.

Fixpoint position (name : string) (names : list string) : nat :=
  match names with
  | [] => 0%nat
  | n :: rest => if String.eqb n name then 0%nat else S (position name rest)
  end.

(** [row[name]] for a row of the klines frame. *)
Definition klines_field (name : string) (row : list pyval) : pyval :=
  nth (position name KLINES_COLUMNS) row PNone.

(** A row of the frame once indexed and coerced: its timestamp and its
    [numeric_cols] cells, in that order. *)
Definition bar : Type := (timestamp * list float64)%type.

Definition bar_has_nan (b : bar) : bool := existsb float_isna b.2.

(** [df.dropna()] *)
Definition dropna (bars : list bar) : list bar :=
  filter (fun b => bar_has_nan b = false) bars.

(** The frame [_process_klines] returns for the surviving bars. *)
Definition bars_frame (bars : list bar) (symbol : string) : DataFrame :=
  {| index := map fst bars;
     columns :=
       app
         (imap (fun i name => (name, FloatCol (map (fun b : bar => nth i b.2 NaN) bars)))
               numeric_cols)
         [("symbol", ObjectCol (map (fun _ => PStr symbol) bars))] |}.

Section Binance.
Context `{Conversions}.

(** [_process_klines] (lines 101-126) *)
Definition _process_klines (self : BinanceDataLoader) (klines : list (list pyval))
    (symbol : string) : M DataFrame :=
  log DEBUG ("Processing " +:+ pretty (length klines) +:+ " records for " +:+ symbol);;
  try_except
    (rows ← lift (pd_DataFrame klines KLINES_COLUMNS);
     stamps ← lift (map_result (fun r => to_datetime_ms (klines_field "timestamp" r)) rows);
     let numeric :=
       map (fun r => map (fun name => to_numeric (klines_field name r)) numeric_cols) rows in
     let df := dropna (zip stamps numeric) in
     match df with
     | [] => raise DataValidationError
     | _ :: _ =>
         log INFO ("Successfully processed " +:+ symbol);;
         mret (bars_frame df symbol)
     end)
    is_Exception
    (fun e =>
       log ERROR ("Processing failed for " +:+ symbol);;
       raise DataValidationError).

(** [fetch_ohlcv] (lines 79-98) *)
Definition binance_fetch_ohlcv (self : BinanceDataLoader) (symbol : string) : M DataFrame :=
  log INFO ("Fetching data for " +:+ symbol);;
  try_except
    (klines ← lift (with_client self (fun c =>
       get_historical_klines c symbol (timeframe (loader_base self))
         (start_date (loader_base self)) (end_date (loader_base self))));
     match klines with
     | [] =>
         log WARNING ("No data for " +:+ symbol);;
         raise DataValidationError
     | _ :: _ =>
         df ← _process_klines self klines symbol;
         mret df
     end)
    is_Exception
    (fun e =>
       if is_DataValidationError e then raise e
       else log ERROR ("API request failed for " +:+ symbol);; raise NetworkError).
End Binance.

(** [s.endswith(suffix)] *)
Definition endswith (s suffix : string) : bool :=
  let n := String.length s in
  let m := String.length suffix in
  if (m <=? n)%nat then String.eqb (substring (n - m) m s) suffix else false.

(** [a < b] on floats; a comparison with NaN is false. *)
Definition float_ltb (a b : float64) : bool :=
  match a, b with
  | NaN, _ | _, NaN => false
  | Inf na, Inf nb => na && negb nb
  | Inf na, Fin _ => na
  | Fin _, Inf nb => negb nb
  | Fin x, Fin y => match (x ?= y)%Q with Lt => true | _ => false end
  end.

(** [sorted(pairs, key=lambda x: x[1], reverse=True)]: descending and stable.
    Every stable sort agrees with this one when no key is NaN. *)
Fixpoint insert_desc (x : string * float64) (l : list (string * float64))
    : list (string * float64) :=
  match l with
  | [] => [x]
  | y :: rest => if float_ltb x.2 y.2 then y :: insert_desc x rest else x :: l
  end.

Definition sorted_desc (pairs : list (string * float64)) : list (string * float64) :=
  foldr insert_desc [] pairs.

(** [xs[:limit]]; a negative limit counts from the end. *)
Definition slice_to {A : Type} (limit : Z) (xs : list A) : list A :=
  if 0 <=? limit then take (Z.to_nat limit) xs
  else take (Z.to_nat (Z.of_nat (length xs) + limit)) xs.

Section BinancePairs.
Context `{Conversions}.

(** [get_top_liquid_pairs] (lines 128-146) *)
Definition binance_get_top_liquid_pairs (self : BinanceDataLoader)
    (base_asset : string) (limit : Z) : M (list string) :=
  try_except
    (tickers ← lift (with_client self get_ticker);
     relevant ← lift (map_result
       (fun t => v ← py_float (quoteVolume t); Ok (ticker_symbol t, v))
       (filter (fun t => endswith (ticker_symbol t) base_asset = true) tickers));
     let sorted_pairs := sorted_desc relevant in
     let pairs := map fst (slice_to limit sorted_pairs) in
     match pairs with
     | [] => raise DataValidationError
     | _ :: _ => mret pairs
     end)
    is_Exception
    (fun e =>
       log ERROR "Liquid pairs fetch failed";;
       raise NetworkError).

#[global] Instance binance_loader : DataLoader BinanceDataLoader := {|
  base := loader_base;
  fetch_ohlcv := binance_fetch_ohlcv;
  get_top_liquid_pairs := binance_get_top_liquid_pairs
|}.
End BinancePairs.

(** ** A concrete setting to run the loader in *)

(** Plain unsigned decimal integers, as far as the examples need them. *)
Definition digit_of (c : ascii) : option Z :=
  let n := Z.of_nat (nat_of_ascii c) in
  if (48 <=? n) && (n <=? 57) then Some (n - 48) else None.

Fixpoint parse_digits (s : string) (acc : Z) : option Z :=
  match s with
  | EmptyString => Some acc
  | String c rest =>
      match digit_of c with
      | Some d => parse_digits rest (10 * acc + d)
      | None => None
      end
  end.

Definition parse_decimal (s : string) : option Z :=
  match s with
  | EmptyString => None
  | _ => parse_digits s 0
  end.

(** Conversions that read ints, floats and plain decimal integer strings the
    way Python and pandas do; other strings are taken as unreadable. *)
#[global] Instance plain_conversions : Conversions := {|
  to_numeric v :=
    match v with
    | PNone => NaN
    | PInt z => Fin (inject_Z z)
    | PFloat x => x
    | PStr s => match parse_decimal s with Some z => Fin (inject_Z z) | None => NaN end
    end;
  to_datetime_ms v :=
    match v with
    | PNone | PFloat NaN => Ok NaT
    | PInt z => Ok (Ts z)
    | PFloat (Fin q) => Ok (Ts (Qnum q / Zpos (Qden q)))
    | PFloat (Inf _) => Raise (OtherException "OutOfBoundsDatetime")
    | PStr s => match parse_decimal s with Some z => Ok (Ts z) | None => Raise ValueError end
    end;
  py_float v :=
    match v with
    | PNone => Raise TypeError
    | PInt z => Ok (Fin (inject_Z z))
    | PFloat x => Ok x
    | PStr s => match parse_decimal s with Some z => Ok (Fin (inject_Z z)) | None => Raise ValueError end
    end
|}.

Definition empty_world : world :=
  {| fs := ∅; write_fails := fun _ => false; io := []; logs := [] |}.

(** ** Observations on a run *)

(** The symbols fetched from the provider, read off the call log. *)
Definition provider_calls (evs : list io_event) : list string :=
  omap (fun ev => match ev with ProviderFetch s => Some s | _ => None end) evs.

(** The world a pipeline run has reached when it turns to the provider (or
    returns the cached frame): the files are untouched and no provider
    call has been logged. *)
Definition after_cache_step (w w' : world) : Prop :=
  fs w' = fs w /\ write_fails w' = write_fails w /\
  provider_calls (io w') = provider_calls (io w).

(** The tasks dictionary a run of [load_historical_data] builds: for each
    listed symbol, the outcome of the load that is awaited for it. *)
Definition awaited_tasks {L : Type} `{DataLoader L} (self : L) (w : world)
    : list (string * result DataFrame) :=
  let syms := symbols (base self) in
  let started :=
    (log INFO ("Starting data load for " +:+ pretty (length syms) +:+ " symbols") w).2 in
  match create_tasks self syms [] started with
  | (Ok tasks, _) => tasks
  | (Raise _, _) => []
  end.

(** The symbols whose awaited load returned, in task order. *)
Definition succeeded (tasks : list (string * result DataFrame)) : list string :=
  omap (fun t : string * result DataFrame => if is_ok t.2 then Some t.1 else None) tasks.

(** The number of awaited loads that raised. *)
Definition failed_count (tasks : list (string * result DataFrame)) : nat :=
  length (filter (fun t : string * result DataFrame => is_raise t.2 = true) tasks).

(** The mapping the loop of lines 77-85 leaves in [data]. *)
Definition collect (tasks : list (string * result DataFrame))
    (data : gmap string DataFrame) : gmap string DataFrame :=
  foldl (fun d (t : string * result DataFrame) =>
           match t.2 with Ok df => <[t.1 := df]> d | Raise _ => d end)
        data tasks.

(** ** Reading a validated frame bar by bar *)

(** Cell [i] of a column, as the Python value it holds. *)
Definition cell (c : column) (i : nat) : option pyval :=
  match c with
  | FloatCol xs => PFloat <$> xs !! i
  | IntCol xs => PInt <$> xs !! i
  | ObjectCol xs => xs !! i
  end.

(** Field [name] of bar [i]. *)
Definition bar_field (df : DataFrame) (name : string) (i : nat) : option pyval :=
  match get_column (columns df) name with
  | Some c => cell c i
  | None => None
  end.

(** An int or a float that is neither NaN nor below zero. *)
Definition nonneg_number (v : pyval) : bool :=
  match v with
  | PInt z => 0 <=? z
  | PFloat (Fin q) => 0 <=? Qnum q
  | PFloat (Inf negative) => negb negative
  | PFloat NaN | PStr _ | PNone => false
  end.

(** Timestamps that grow from each bar to the next (NaT never does). *)
Fixpoint strictly_increasing (ix : list timestamp) : bool :=
  match ix with
  | [] => true
  | NaT :: _ => false
  | Ts a :: rest =>
      match rest with
      | [] => true
      | NaT :: _ => false
      | Ts b :: _ => (a <? b) && strictly_increasing rest
      end
  end.

(** The bars of the klines frame before [dropna] (lines 105-112 of
    [_process_klines]): the framing, the timestamp index and the numeric
    coercion. *)
Definition klines_bars `{Conversions} (klines : list (list pyval)) : result (list bar) :=
  rows ← pd_DataFrame klines KLINES_COLUMNS;
  stamps ← map_result (fun r => to_datetime_ms (klines_field "timestamp" r)) rows;
  Ok (zip stamps
        (map (fun r => map (fun name => to_numeric (klines_field name r)) numeric_cols) rows)).

(** Some price or volume cell of the raw row is NaN once coerced. *)
Definition row_has_nan `{Conversions} (row : list pyval) : bool :=
  existsb float_isna (map (fun name => to_numeric (klines_field name row)) numeric_cols).

(** ** Scenarios the properties are run on *)

Definition demo_base : BaseDataLoader :=
  {| symbols := ["AAABTC"; "BBBBTC"; "CCCBTC"];
     start_date := "1 Mar, 2025";
     end_date := "28 Mar, 2025";
     timeframe := "1m";
     cache_dir := "data" |}.

(** A kline as Binance delivers it: open time, five price and volume cells,
    then six cells the loader ignores. *)
Definition kline (t : Z) (o h l c v : pyval) : list pyval :=
  [PInt t; o; h; l; c; v; PInt (t + 59999); PStr "0"; PInt 0; PStr "0"; PStr "0"; PStr "0"].

(** Three klines; the high of the second is not a number. *)
Definition demo_klines : list (list pyval) :=
  [kline 60000 (PStr "10") (PStr "12") (PStr "9") (PStr "11") (PStr "500");
   kline 120000 (PStr "11") (PStr "n/a") (PStr "10") (PStr "12") (PStr "400");
   kline 180000 (PStr "12") (PStr "14") (PStr "11") (PStr "13") (PStr "300")].

(** One kline with a thirteenth cell; its price and volume cells are all
    numbers. *)
Definition wide_klines : list (list pyval) :=
  [kline 60000 (PStr "10") (PStr "12") (PStr "9") (PStr "11") (PStr "500") ++ [PStr "0"]].

(** The provider knows AAABTC and fails on every other symbol; no ticker it
    lists is quoted in BTC. *)
Definition demo_client : AsyncClient :=
  {| get_ticker :=
       Ok [ {| ticker_symbol := "AAAUSDT"; quoteVolume := PStr "900" |};
            {| ticker_symbol := "BBBUSDT"; quoteVolume := PStr "700" |} ];
     get_historical_klines := fun symbol _ _ _ =>
       if String.eqb symbol "AAABTC" then Ok demo_klines
       else Raise (OtherException "BinanceAPIException") |}.

Definition demo_loader : BinanceDataLoader :=
  {| loader_base := demo_base; base_asset := "BTC"; pairs_limit := 100;
     client := Some demo_client |}.

(** A frame whose five required columns all hold [cells]. *)
Definition price_frame (ix : list timestamp) (cells : list float64) : DataFrame :=
  {| index := ix; columns := map (fun n => (n, FloatCol cells)) required_columns |}.

Definition valid_frame : DataFrame := price_frame [Ts 60000; Ts 120000] [Fin 10; Fin 11].

Definition nan_frame : DataFrame := price_frame [Ts 60000; Ts 120000] [Fin 10; NaN].

(** Valid for the validator, with its bars in reverse order. *)
Definition unsorted_frame : DataFrame := price_frame [Ts 120000; Ts 60000] [Fin 11; Fin 10].

(** A frame whose open column holds text: comparing it with zero raises
    TypeError. *)
Definition text_frame : DataFrame :=
  {| index := [Ts 60000; Ts 120000];
     columns := ("open", ObjectCol [PStr "n/a"; PInt 10])
                :: map (fun n => (n, FloatCol [Fin 10; Fin 11])) ["high"; "low"; "close"; "volume"] |}.

(** What the provider's klines for AAABTC become: the second bar is gone. *)
Definition fetched_frame : DataFrame :=
  bars_frame [(Ts 60000, [Fin 10; Fin 12; Fin 9; Fin 11; Fin 500]);
              (Ts 180000, [Fin 12; Fin 14; Fin 11; Fin 13; Fin 300])] "AAABTC".

Definition cache_file (symbol : string) : string :=
  cache_path demo_base (_generate_cache_filename demo_base symbol).

(** A world with the given cache files; [read_only] makes every write fail. *)
Definition demo_world (files : list (string * blob)) (read_only : bool) : world :=
  {| fs := list_to_map files; write_fails := fun _ => read_only; io := []; logs := [] |}.

(** ** Further observations *)

(** The paths written under the cache directory, read off the call log. *)
Definition cache_writes (evs : list io_event) : list string :=
  omap (fun ev => match ev with FsWrite p => Some p | _ => None end) evs.

(** Volumes that never grow from one rank to the next. *)
Fixpoint never_ascends (vs : list float64) : bool :=
  match vs with
  | [] => true
  | a :: rest =>
      match rest with
      | [] => true
      | b :: _ => negb (float_ltb a b) && never_ascends rest
      end
  end.

(** ** The connection life cycle (binance.py, main.py) *)




Section Connection.
Context `{Conversions}.



End Connection.

(** ** Result tables (core/backtester.py) *)

Definition KeyError : exn := OtherException "KeyError".
Definition StopIteration : exn := OtherException "StopIteration".

(** The dict a strategy's [get_metrics] returns, read through its two keys;
    None stands for a key that is absent.  Both values are dicts in
    insertion order: metric to value, and metric to (symbol to value). *)
Record strategy_results : Type := {
  by_symbol : option (list (string * list (string * pyval)));
  overall : option (list (string * pyval))
}.

(** [results[key]] *)
Definition getitem {V : Type} (entry : option V) : result V :=
  match entry with
  | Some v => Ok v
  | None => Raise KeyError
  end.

(** One row of the long format: the dict with keys strategy, symbol, metric
    and value. *)
Record result_row : Type := {
  row_strategy : string;
  row_symbol : string;
  row_metric : string;
  row_value : pyval
}.

(** [Backtester._format_results] (backtester.py, lines 52-75) *)
Definition _format_results (strategy_name : string) (results : strategy_results)
    : result (list result_row) :=
  per_symbol ← getitem (by_symbol results);
  let formatted :=
    flat_map (fun mv : string * list (string * pyval) =>
                map (fun sv : string * pyval =>
                       {| row_strategy := strategy_name; row_symbol := sv.1;
                          row_metric := mv.1; row_value := sv.2 |})
                    mv.2)
             per_symbol in
  totals ← getitem (overall results);
  Ok (formatted ++
      map (fun mv : string * pyval =>
             {| row_strategy := strategy_name; row_symbol := "overall";
                row_metric := mv.1; row_value := mv.2 |})
          totals).

(** The loop of lines 86-87 of [_save_strategy_results]: one column per
    symbol, [None] where a metric has no value for the symbol. *)
Fixpoint symbol_columns (per_symbol : list (string * list (string * pyval)))
    (metrics syms : list string) (data : list (string * list pyval))
    : result (list (string * list pyval)) :=
  match syms with
  | [] => Ok data
  | symbol :: rest =>
      col ← map_result
        (fun m => by_metric ← getitem (dict_get m per_symbol);
                  Ok (default PNone (dict_get symbol by_metric)))
        metrics;
      symbol_columns per_symbol metrics rest (dict_set symbol col data)
  end.

(** [Backtester._save_strategy_results] (backtester.py, lines 77-92), up to
    the table handed to [pd.DataFrame(data).to_csv]: the path of the file
    and the columns of the table. *)
Definition _save_strategy_results (results_dir strategy_name : string)
    (results : strategy_results) : result (string * list (string * list pyval)) :=
  totals ← getitem (overall results);
  let metrics := map fst totals in
  let data := [("metric", map PStr metrics)] in
  overall_col ← map_result (fun m => getitem (dict_get m totals)) metrics;
  let data := dict_set "overall" overall_col data in
  per_symbol ← getitem (by_symbol results);
  first ← match per_symbol with
          | [] => Raise StopIteration
          | mv :: _ => Ok mv.2
          end;
  data ← symbol_columns per_symbol metrics (map fst first) data;
  Ok (path_join results_dir (strategy_name +:+ "_metrics.csv"), data).

(** ** SMA crossover signals (strategies/sma_cross.py) *)

(** [series.rolling(window).mean()] of pandas, a parameter of the
    development: what it returns is a float series over the index of its
    argument, whatever the values are. *)
Class Rolling : Type := {
  rolling_mean : Z -> column -> result (list float64);
  rolling_mean_length window c xs :
    rolling_mean window c = Ok xs -> length xs = column_length c
}.

(** [(a > b).astype(int)] on two float series over one index. *)
Definition gt_astype_int (a b : list float64) : list Z :=
  zip_with (fun x y => if float_ltb y x then 1 else 0) a b.

(** [(a < b).astype(int)] *)
Definition lt_astype_int (a b : list float64) : list Z :=
  zip_with (fun x y => if float_ltb x y then 1 else 0) a b.

Record SMACrossoverStrategy : Type := {
  price_data : list (string * DataFrame);   (* a dict, in insertion order *)
  short_window : Z;
  long_window : Z
}.

Section SMACrossover.
Context `{Rolling}.

(** The body of the loop of [generate_signals] (sma_cross.py, lines 31-40)
    for one symbol's frame. *)
Definition symbol_signals (self : SMACrossoverStrategy) (data : DataFrame) : result DataFrame :=
  close ← getitem (get_column (columns data) "close");
  short_sma ← rolling_mean (short_window self) close;
  close ← getitem (get_column (columns data) "close");
  long_sma ← rolling_mean (long_window self) close;
  let entries := gt_astype_int short_sma long_sma in
  let exits := lt_astype_int short_sma long_sma in
  Ok {| index := index data;
        columns := [("entries", IntCol entries); ("exits", IntCol exits)] |}.

(** The loop of [generate_signals] over the items of a dict. *)
Fixpoint signals_loop (self : SMACrossoverStrategy) (items : list (string * DataFrame))
    (signals : list (string * DataFrame)) : result (list (string * DataFrame)) :=
  match items with
  | [] => Ok signals
  | (symbol, data) :: rest =>
      sig ← symbol_signals self data;
      signals_loop self rest (dict_set symbol sig signals)
  end.

(** [SMACrossoverStrategy.generate_signals] (sma_cross.py, lines 22-42) *)
Definition generate_signals (self : SMACrossoverStrategy) : result (list (string * DataFrame)) :=
  signals_loop self (price_data self) [].
End SMACrossover.

(** A rolling mean in exact rational arithmetic, to run the signals on: NaN
    until the window is full and wherever the window holds a value that is
    not finite. *)
Definition window_mean (w : nat) (win : list float64) : float64 :=
  if (w =? 0)%nat || (length win <? w)%nat then NaN
  else
    match foldr (fun x acc => match x, acc with
                              | Fin q, Some s => Some (q + s)%Q
                              | _, _ => None
                              end) (Some 0%Q) win with
    | Some s => Fin (s / inject_Z (Z.of_nat w))
    | None => NaN
    end.

Definition exact_rolling_mean (window : Z) (c : column) : result (list float64) :=
  if window <? 0 then Raise ValueError
  else
    let w := Z.to_nat window in
    match c with
    | FloatCol xs =>
        Ok (imap (fun i _ => window_mean w (take w (drop (S i - w) (take (S i) xs)))) xs)
    | IntCol zs =>
        let xs := map (fun z => Fin (inject_Z z)) zs in
        Ok (imap (fun i _ => window_mean w (take w (drop (S i - w) (take (S i) xs)))) xs)
    | ObjectCol _ => Raise (OtherException "DataError")
    end.

#[global] Instance exact_rolling : Rolling.
Proof.
  refine {| rolling_mean := exact_rolling_mean |}.
  intros window c xs. unfold exact_rolling_mean.
  destruct (window <? 0); [discriminate|].
  destruct c as [ys|zs|os]; [| |discriminate]; intros [= <-]; cbn;
    rewrite length_imap, ?length_map; reflexivity.
Defined.

Definition demo_strategy : SMACrossoverStrategy :=
  {| price_data := [("AAABTC", valid_frame)]; short_window := 1; long_window := 2 |}.

(** * Properties *)

Ltac run_M :=
  unfold mbind, mret, M_bind, M_ret, raise, lift, try_except, log, emit; simpl.


Lemma provider_calls_app evs1 evs2 :
  provider_calls (evs1 ++ evs2) = provider_calls evs1 ++ provider_calls evs2.
Proof. apply omap_app. Qed.

(** ** What the validator can raise *)

Lemma object_lt0_any_raises xs e :
  object_lt0_any xs = Raise e -> e = TypeError.
Proof.
  induction xs as [|v xs IH]; simpl; [discriminate|].
  destruct v; simpl; destruct (object_lt0_any xs);
    intros [= <-]; auto.
Qed.

Lemma df_lt0_any_raises cols names e :
  df_lt0_any cols names = Raise e -> is_DataLoaderError e = false.
Proof.
  induction names as [|n names IH]; simpl; [discriminate|].
  destruct (get_column cols n) as [c|]; [|intros [= <-]; reflexivity].
  destruct (column_lt0_any c) eqn:Hc.
  - destruct (df_lt0_any cols names); [discriminate|].
    intros [= <-]. auto.
  - intros [= <-]. destruct c; simpl in Hc; try discriminate.
    apply object_lt0_any_raises in Hc. subst. reflexivity.
Qed.

Lemma validate_data_not_CacheError df symbol e :
  _validate_data df symbol = Raise e -> is_CacheError e = false.
Proof.
  unfold _validate_data.
  repeat case_match; try discriminate; intros [= <-]; try reflexivity.
  match goal with Hr : df_lt0_any _ _ = Raise _ |- _ =>
    apply df_lt0_any_raises in Hr end.
  destruct e0; simpl in *; congruence.
Qed.

Section LoaderFacts.
Context {L : Type} `{DataLoader L}.
Implicit Types (self : L) (symbol : string) (w : world).

Lemma load_symbol_data_miss self symbol w :
  fs w !! cache_path (base self) (_generate_cache_filename (base self) symbol) = None ->
  exists w', after_cache_step w w' /\
    _load_symbol_data self symbol w =
    fetch_validate_store self symbol (_generate_cache_filename (base self) symbol) w'.
Proof.
  intros Hmiss. unfold _load_symbol_data, _load_from_cache, path_exists.
  run_M. rewrite Hmiss. simpl.
  eexists. split; [|reflexivity].
  repeat split; simpl. rewrite provider_calls_app, app_nil_r. reflexivity.
Qed.

Lemma load_symbol_data_corrupt self symbol w :
  fs w !! cache_path (base self) (_generate_cache_filename (base self) symbol) = Some Corrupt ->
  exists w', after_cache_step w w' /\
    _load_symbol_data self symbol w =
    fetch_validate_store self symbol (_generate_cache_filename (base self) symbol) w'.
Proof.
  intros Hc. unfold _load_symbol_data, _load_from_cache, path_exists, read_parquet.
  run_M. repeat (rewrite Hc; simpl).
  eexists. split; [|reflexivity].
  repeat split; simpl. rewrite !provider_calls_app, !app_nil_r. reflexivity.
Qed.

Lemma load_symbol_data_cached self symbol w df :
  fs w !! cache_path (base self) (_generate_cache_filename (base self) symbol)
    = Some (Parquet df) ->
  exists w', after_cache_step w w' /\
    _load_symbol_data self symbol w =
    (match _validate_data df symbol with Ok _ => Ok df | Raise e => Raise e end, w').
Proof.
  intros Hc. unfold _load_symbol_data, _load_from_cache, path_exists, read_parquet.
  run_M. repeat (rewrite Hc; simpl).
  destruct (_validate_data df symbol) as [[]|e] eqn:Hv; simpl.
  - eexists. split; [|reflexivity].
    repeat split; simpl. rewrite !provider_calls_app, !app_nil_r. reflexivity.
  - rewrite (validate_data_not_CacheError _ _ _ Hv).
    eexists. split; [|reflexivity].
    repeat split; simpl. rewrite !provider_calls_app, !app_nil_r. reflexivity.
Qed.

Lemma fetch_validate_store_spec self symbol filename w :
  exists w',
    fetch_validate_store self symbol filename w =
    (match (fetch_ohlcv self symbol (emit (ProviderFetch symbol) w).2).1 with
     | Ok fresh =>
         match _validate_data fresh symbol with
         | Ok _ => Ok fresh
         | Raise e => Raise e
         end
     | Raise e => Raise e
     end, w').
Proof.
  unfold fetch_validate_store, _save_to_cache, to_parquet. run_M.
  destruct (fetch_ohlcv self symbol _) as [[fresh|e] w1]; simpl; [|eauto].
  destruct (_validate_data fresh symbol) as [[]|e]; simpl; [|eauto].
  destruct (write_fails w1 _); simpl; eauto.
Qed.

Lemma save_to_cache_raises self df filename w e :
  (_save_to_cache (base self) df filename w).1 = Raise e -> e = CacheError.
Proof.
  unfold _save_to_cache, to_parquet. run_M.
  destruct (write_fails w _); simpl; [intros [= <-]; reflexivity | discriminate].
Qed.
End LoaderFacts.

(** ** What the Binance provider can raise *)

Section BinanceFacts.
Context `{Conversions}.

Lemma process_klines_raises self klines symbol w e :
  (_process_klines self klines symbol w).1 = Raise e -> e = DataValidationError.
Proof.
  unfold _process_klines. run_M.
  destruct (pd_DataFrame klines KLINES_COLUMNS) as [rows|e1]; simpl;
    [|intros [= <-]; reflexivity].
  destruct (map_result _ rows) as [stamps|e2]; simpl;
    [|intros [= <-]; reflexivity].
  destruct (dropna _); simpl; [intros [= <-]; reflexivity | discriminate].
Qed.

Lemma binance_fetch_ohlcv_raises self symbol w e :
  (binance_fetch_ohlcv self symbol w).1 = Raise e ->
  e = DataValidationError \/ e = NetworkError.
Proof.
  unfold binance_fetch_ohlcv. run_M.
  destruct (with_client self _) as [klines|e1]; simpl.
  - destruct klines as [|k klines]; simpl; [intros [= <-]; auto|].
    destruct (_process_klines self (k :: klines) symbol _) as [[df|e2] w2] eqn:Hp; simpl.
    + discriminate.
    + assert (e2 = DataValidationError) as ->
        by (eapply process_klines_raises; rewrite Hp; reflexivity).
      simpl.
      intros [= <-]; auto.
  - destruct (is_DataValidationError e1) eqn:Hd; simpl; intros [= <-]; auto.
    destruct e1; try discriminate; auto.
Qed.

Lemma binance_fetch_ohlcv_not_CacheError (self : BinanceDataLoader) symbol w :
  (fetch_ohlcv self symbol w).1 <> Raise CacheError.
Proof.
  intros Hr. apply binance_fetch_ohlcv_raises in Hr as [|]; discriminate.
Qed.
End BinanceFacts.

(** ** The per-symbol pipeline *)

Section Acquirer.
Context {L : Type} `{DataLoader L}.
Implicit Types (self : L) (symbol : string) (w : world).

(** C1 (the behaviour of the code): a cached series that fails validation is
    not treated as a miss.  The validation error leaves [_load_symbol_data]
    as it was raised and the provider is not asked for the symbol. *)
Theorem invalid_cached_series_is_raised self symbol w df e :
  fs w !! cache_path (base self) (_generate_cache_filename (base self) symbol)
    = Some (Parquet df) ->
  _validate_data df symbol = Raise e ->
  exists w', _load_symbol_data self symbol w = (Raise e, w') /\
             provider_calls (io w') = provider_calls (io w).
Proof.
  intros Hfile Hv.
  destruct (load_symbol_data_cached self symbol w df Hfile) as (w' & (_ & _ & Hio) & Hrun).
  rewrite Hv in Hrun. eauto.
Qed.

(** C6: when the cache entry of a symbol exists, is read without error and
    passes validation, [_load_symbol_data] returns the cached series, leaves
    the files alone and makes no provider call. *)
Theorem valid_cache_hit_skips_provider self symbol w df :
  fs w !! cache_path (base self) (_generate_cache_filename (base self) symbol)
    = Some (Parquet df) ->
  _validate_data df symbol = Ok tt ->
  exists w', _load_symbol_data self symbol w = (Ok df, w') /\
             provider_calls (io w') = provider_calls (io w) /\
             fs w' = fs w.
Proof.
  intros Hfile Hv.
  destruct (load_symbol_data_cached self symbol w df Hfile) as (w' & (Hfs & _ & Hio) & Hrun).
  rewrite Hv in Hrun. eauto.
Qed.

(** C7: [_load_symbol_data] never raises CacheError to its caller (the
    provider raising none of its own).  A cache read that raises CacheError
    continues with the very fetch-validate-store steps a miss continues
    with, and when the write after a successful fetch and validation raises
    CacheError the fetched series is returned all the same. *)
Theorem cache_errors_are_absorbed self symbol w :
  (forall w0, (fetch_ohlcv self symbol w0).1 <> Raise CacheError) ->
  let filename := _generate_cache_filename (base self) symbol in
  let path := cache_path (base self) filename in
  (_load_symbol_data self symbol w).1 <> Raise CacheError
  /\ (fs w !! path = Some Corrupt ->
      exists w', after_cache_step w w' /\
        _load_symbol_data self symbol w = fetch_validate_store self symbol filename w')
  /\ (fs w !! path = None ->
      exists w', after_cache_step w w' /\
        _load_symbol_data self symbol w = fetch_validate_store self symbol filename w')
  /\ (forall w0 w1 fresh,
        fetch_ohlcv self symbol (emit (ProviderFetch symbol) w0).2 = (Ok fresh, w1) ->
        _validate_data fresh symbol = Ok tt ->
        (_save_to_cache (base self) fresh filename w1).1 = Raise CacheError ->
        (fetch_validate_store self symbol filename w0).1 = Ok fresh).
Proof.
  intros Hprovider filename path.
  assert (forall w0, (fetch_validate_store self symbol filename w0).1 <> Raise CacheError) as Hfvs.
  { intros w0. destruct (fetch_validate_store_spec self symbol filename w0) as (w' & ->).
    simpl. destruct (fetch_ohlcv self symbol _).1 as [fresh|e] eqn:Hf.
    - destruct (_validate_data fresh symbol) as [[]|e] eqn:Hv; [discriminate|].
      apply validate_data_not_CacheError in Hv. intros [= ->]. discriminate.
    - rewrite <- Hf. apply Hprovider. }
  split; [|split; [|split]].
  - destruct (fs w !! path) as [[df|]|] eqn:Hfile.
    + destruct (load_symbol_data_cached self symbol w df Hfile) as (w' & _ & ->). simpl.
      destruct (_validate_data df symbol) as [[]|e] eqn:Hv; [discriminate|].
      apply validate_data_not_CacheError in Hv. intros [= ->]. discriminate.
    + destruct (load_symbol_data_corrupt self symbol w Hfile) as (w' & _ & ->). apply Hfvs.
    + destruct (load_symbol_data_miss self symbol w Hfile) as (w' & _ & ->). apply Hfvs.
  - apply load_symbol_data_corrupt.
  - apply load_symbol_data_miss.
  - intros w0 w1 fresh Hf Hv _.
    destruct (fetch_validate_store_spec self symbol filename w0) as (w' & ->).
    rewrite Hf. simpl. rewrite Hv. reflexivity.
Qed.
End Acquirer.

(** C9: the cache key is not injective.  Two requests that differ in symbol
    and timeframe, each with an underscore inside a component, get the same
    cache filename and so the same cache file. *)
Theorem cache_filename_not_injective :
  exists (self1 self2 : BaseDataLoader) (symbol1 symbol2 : string),
    (symbol1, timeframe self1, start_date self1, end_date self1)
      <> (symbol2, timeframe self2, start_date self2, end_date self2)
    /\ cache_dir self1 = cache_dir self2
    /\ _generate_cache_filename self1 symbol1 = _generate_cache_filename self2 symbol2
    /\ cache_path self1 (_generate_cache_filename self1 symbol1)
       = cache_path self2 (_generate_cache_filename self2 symbol2).
Proof.
  exists {| symbols := ["BTC_USDT"]; start_date := "2025-03-01"; end_date := "2025-03-28";
            timeframe := "1m"; cache_dir := "data" |},
         {| symbols := ["BTC"]; start_date := "2025-03-01"; end_date := "2025-03-28";
            timeframe := "USDT_1m"; cache_dir := "data" |},
         "BTC_USDT", "BTC".
  split; [discriminate|]. repeat split.
Qed.

(** ** The tasks dictionary *)

Lemma dict_get_set_eq {V} k (v : V) d : dict_get k (dict_set k v d) = Some v.
Proof.
  induction d as [|[k' v'] d IH]; simpl.
  - rewrite String.eqb_refl. reflexivity.
  - destruct (String.eqb k' k) eqn:E; simpl; rewrite ?String.eqb_refl, ?E; auto.
Qed.

Lemma dict_set_keys {V} k (v : V) d :
  map fst (dict_set k v d) = if bool_decide (k ∈ map fst d) then map fst d else map fst d ++ [k].
Proof.
  induction d as [|[k' v'] d IH]; simpl; [reflexivity|].
  destruct (String.eqb k' k) eqn:E; simpl.
  - apply String.eqb_eq in E. subst. rewrite bool_decide_eq_true_2 by left. reflexivity.
  - apply String.eqb_neq in E. rewrite IH.
    destruct (bool_decide (k ∈ map fst d)) eqn:B.
    + apply bool_decide_eq_true_1 in B. rewrite bool_decide_eq_true_2 by (right; done). done.
    + apply bool_decide_eq_false_1 in B.
      rewrite bool_decide_eq_false_2; [done|]. rewrite elem_of_cons.
      intros [->|Hin]; [by apply E | by apply B].
Qed.

Lemma dict_set_NoDup {V} k (v : V) d : NoDup (map fst d) -> NoDup (map fst (dict_set k v d)).
Proof.
  intros Hd. rewrite dict_set_keys. case_bool_decide; [done|].
  apply NoDup_app. split_and!; [done| |apply NoDup_singleton].
  intros x Hx Hk%list_elem_of_singleton. subst. done.
Qed.

Lemma dict_get_elem_of {V} k (v : V) d :
  NoDup (map fst d) -> (k, v) ∈ d <-> dict_get k d = Some v.
Proof.
  induction d as [|[k' v'] d IH]; simpl; intros Hd.
  - split; [intros []%elem_of_nil | discriminate].
  - apply NoDup_cons in Hd as [Hk Hd]. rewrite elem_of_cons.
    destruct (String.eqb k' k) eqn:E.
    + apply String.eqb_eq in E. subst k'. split.
      * intros [[= <-]|Hin]; [done|]. exfalso. apply Hk.
        apply list_elem_of_fmap. exists (k, v). done.
      * intros [= ->]. by left.
    + apply String.eqb_neq in E. rewrite <- (IH Hd). split.
      * intros [[= -> ->]|]; [done|done].
      * by right.
Qed.

Section OrchestratorFacts.
Context {L : Type} `{DataLoader L}.
Implicit Types (self : L) (w : world) (tasks : list (string * result DataFrame)).

Lemma create_tasks_total self syms tasks w :
  exists tasks' w', create_tasks self syms tasks w = (Ok tasks', w')
    /\ (NoDup (map fst tasks) -> NoDup (map fst tasks')).
Proof.
  revert tasks w. induction syms as [|s syms IH]; intros tasks w; simpl.
  - do 2 eexists. split; [reflexivity|auto].
  - unfold run_task. run_M.
    destruct (_load_symbol_data self s w) as [r w1].
    destruct (IH (dict_set s r tasks) w1) as (tasks' & w' & -> & Hnd).
    do 2 eexists. split; [reflexivity|]. intros Hd. apply Hnd, dict_set_NoDup, Hd.
Qed.

Lemma awaited_tasks_NoDup self w : NoDup (map fst (awaited_tasks self w)).
Proof.
  unfold awaited_tasks.
  destruct (create_tasks_total self (symbols (base self)) [] (log INFO
    ("Starting data load for " +:+ pretty (length (symbols (base self))) +:+ " symbols") w).2)
    as (tasks' & w' & -> & Hnd).
  apply Hnd. constructor.
Qed.

Lemma await_tasks_spec tasks data w :
  exists w', await_tasks tasks data w = (Ok (collect tasks data), w')
    /\ io w' = io w /\ fs w' = fs w.
Proof.
  revert data w. induction tasks as [|[s [df|e]] tasks IH]; intros data w; simpl.
  - eexists. split; [reflexivity|auto].
  - run_M. destruct (IH (<[s:=df]> data) {| fs := fs w; write_fails := write_fails w; io := io w;
      logs := logs w ++ [(DEBUG, "Success: " +:+ s)] |}) as (w' & -> & Hio & Hfs).
    eexists. split; [reflexivity|auto].
  - run_M. destruct (is_DataLoaderError e); simpl.
    + destruct (IH data {| fs := fs w; write_fails := write_fails w; io := io w;
        logs := logs w ++ [(WARNING, "Skipped " +:+ s)] |}) as (w' & -> & Hio & Hfs).
      eexists. split; [reflexivity|auto].
    + destruct (IH data {| fs := fs w; write_fails := write_fails w; io := io w;
        logs := logs w ++ [(ERROR, "Unexpected error with " +:+ s)] |}) as (w' & -> & Hio & Hfs).
      eexists. split; [reflexivity|auto].
Qed.

Lemma load_historical_data_run self w :
  symbols (base self) <> [] ->
  exists w',
    load_historical_data self w =
    (if Nat.eqb (size (collect (awaited_tasks self w) ∅)) 0
     then Raise DataLoaderError
     else Ok (collect (awaited_tasks self w) ∅), w').
Proof.
  intros Hne. unfold load_historical_data, awaited_tasks.
  destruct (symbols (base self)) as [|s syms] eqn:Hs; [done|].
  unfold mbind, mret, M_bind, M_ret, raise, log. cbn -[create_tasks await_tasks].
  match goal with |- context [create_tasks self (s :: syms) [] ?w0] =>
    destruct (create_tasks_total self (s :: syms) [] w0) as (tasks & w1 & -> & _) end.
  destruct (await_tasks_spec tasks ∅ w1) as (w2 & -> & _).
  destruct (Nat.eqb (size (collect tasks ∅)) 0); cbn; eauto.
Qed.

Lemma load_historical_data_no_symbols self w :
  symbols (base self) = [] ->
  (load_historical_data self w).1 = Raise DataLoaderError /\
  io (load_historical_data self w).2 = io w /\
  fs (load_historical_data self w).2 = fs w.
Proof. intros Hs. unfold load_historical_data. rewrite Hs. run_M. done. Qed.
End OrchestratorFacts.

(** ** The result mapping *)

Lemma dict_get_None {V} k (d : list (string * V)) : k ∉ map fst d -> dict_get k d = None.
Proof.
  induction d as [|[k' v'] d IH]; simpl; [done|].
  rewrite not_elem_of_cons. intros [Hne Hk].
  destruct (String.eqb k' k) eqn:E; [apply String.eqb_eq in E; congruence | auto].
Qed.

Lemma collect_lookup tasks data s :
  NoDup (map fst tasks) ->
  collect tasks data !! s =
  match dict_get s tasks with
  | Some (Ok df) => Some df
  | _ => data !! s
  end.
Proof.
  revert data. induction tasks as [|[k r] tasks IH]; intros data Hd; simpl; [done|].
  apply NoDup_cons in Hd as [Hk Hd]. unfold collect in *. simpl. rewrite (IH _ Hd).
  destruct (String.eqb k s) eqn:E.
  - apply String.eqb_eq in E. subst k. rewrite (dict_get_None s tasks Hk).
    destruct r; [apply lookup_insert_eq | done].
  - apply String.eqb_neq in E.
    destruct (dict_get s tasks) as [[df|e]|]; [done| |];
      destruct r; rewrite ?lookup_insert_ne; done.
Qed.

Lemma collect_size tasks data :
  NoDup (map fst tasks) ->
  (forall k, k ∈ map fst tasks -> data !! k = None) ->
  size (collect tasks data) = (size data + length (succeeded tasks))%nat.
Proof.
  revert data. induction tasks as [|[k r] tasks IH]; intros data Hd Hfresh.
  - cbn. lia.
  - change (map fst ((k, r) :: tasks)) with (k :: map fst tasks) in *.
    apply NoDup_cons in Hd as [Hk Hd].
    destruct r as [df|e].
    + change (collect ((k, Ok df) :: tasks) data) with (collect tasks (<[k:=df]> data)).
      change (succeeded ((k, Ok df) :: tasks)) with (k :: succeeded tasks).
      rewrite IH; [|done|].
      * rewrite map_size_insert_None by (apply Hfresh; left). cbn [length]. lia.
      * intros k' Hk'. rewrite lookup_insert_ne by (intros ->; done).
        apply Hfresh. by right.
    + change (collect ((k, Raise e) :: tasks) data) with (collect tasks data).
      change (succeeded ((k, Raise e) :: tasks)) with (succeeded tasks).
      apply IH; [done|]. intros k' Hk'. apply Hfresh. by right.
Qed.

Lemma succeeded_failed_length tasks :
  (length (succeeded tasks) + failed_count tasks = length tasks)%nat.
Proof.
  induction tasks as [|[k [df|e]] tasks IH]; [done| |].
  - change (succeeded ((k, Ok df) :: tasks)) with (k :: succeeded tasks).
    unfold failed_count in *. rewrite filter_cons_False by (simpl; discriminate).
    cbn [length]. lia.
  - change (succeeded ((k, Raise e) :: tasks)) with (succeeded tasks).
    unfold failed_count in *. rewrite filter_cons_True by done.
    cbn [length]. lia.
Qed.

Lemma succeeded_nil_iff tasks :
  succeeded tasks = [] <-> Forall (fun t => is_raise t.2 = true) tasks.
Proof.
  unfold succeeded. induction tasks as [|[k [df|e]] tasks IH]; simpl.
  - split; [constructor | done].
  - split; [discriminate | intros Hf; inversion Hf; discriminate].
  - rewrite Forall_cons. simpl. tauto.
Qed.

Lemma elem_of_succeeded tasks s :
  s ∈ succeeded tasks <-> exists df, (s, Ok df) ∈ tasks.
Proof.
  unfold succeeded. rewrite list_elem_of_omap. split.
  - intros ([k [df|e]] & Hin & Hs); simpl in Hs; [|discriminate].
    injection Hs as ->. eauto.
  - intros (df & Hin). exists (s, Ok df). done.
Qed.

(** ** The batch *)

Section Batch.
Context {L : Type} `{DataLoader L}.
Implicit Types (self : L) (w : world).

(** C4: [load_historical_data] raises DataLoaderError exactly when the
    symbol list is empty or every awaited per-symbol load fails; with an
    empty list it raises without a cache probe, read or write and without a
    provider fetch. *)
Theorem load_historical_data_raises_iff self w :
  ((load_historical_data self w).1 = Raise DataLoaderError <->
     symbols (base self) = [] \/
     Forall (fun t => is_raise t.2 = true) (awaited_tasks self w))
  /\ (symbols (base self) = [] ->
      (load_historical_data self w).1 = Raise DataLoaderError /\
      io (load_historical_data self w).2 = io w /\
      fs (load_historical_data self w).2 = fs w).
Proof.
  pose proof (load_historical_data_no_symbols self w) as Hempty.
  split; [|exact Hempty].
  destruct (symbols (base self)) as [|s syms] eqn:Hs.
  - split; [auto | intros _; apply Hempty; reflexivity].
  - destruct (load_historical_data_run self w) as (w' & ->); [rewrite Hs; done|].
    pose proof (awaited_tasks_NoDup self w) as Hnd.
    pose proof (collect_size (awaited_tasks self w) ∅ Hnd (fun k _ => lookup_empty k)) as Hsz.
    rewrite map_size_empty in Hsz. cbn [fst]. rewrite Hsz.
    rewrite <- succeeded_nil_iff.
    destruct (succeeded (awaited_tasks self w)); cbn; split; try done.
    + auto.
    + intros [|]; done.
Qed.

(** C5: when fewer than all of the awaited loads fail, each with a
    DataLoaderError, [load_historical_data] raises nothing and returns the
    mapping whose keys are exactly the symbols whose load returned, each
    mapped to the series its load produced: N - M entries for N symbols and
    M failures. *)
Theorem partial_failure_returns_the_successes self w :
  let tasks := awaited_tasks self w in
  (failed_count tasks < length tasks)%nat ->
  Forall (fun t => forall e, t.2 = Raise e -> is_DataLoaderError e = true) tasks ->
  exists data w',
    load_historical_data self w = (Ok data, w')
    /\ size data = (length tasks - failed_count tasks)%nat
    /\ dom data = list_to_set (succeeded tasks)
    /\ forall s df, data !! s = Some df <-> (s, Ok df) ∈ tasks.
Proof.
  intros tasks Hlt _.
  pose proof (awaited_tasks_NoDup self w) as Hnd. fold tasks in Hnd.
  pose proof (collect_size tasks ∅ Hnd (fun k _ => lookup_empty k)) as Hsz.
  rewrite map_size_empty in Hsz.
  pose proof (succeeded_failed_length tasks) as Hlen.
  assert (symbols (base self) <> []) as Hne.
  { intros Hs. subst tasks. unfold awaited_tasks in Hlt. rewrite Hs in Hlt.
    cbn in Hlt. lia. }
  destruct (load_historical_data_run self w Hne) as (w' & Hrun). fold tasks in Hrun.
  assert (forall s df, collect tasks ∅ !! s = Some df <-> (s, Ok df) ∈ tasks) as Hlook.
  { intros s df. rewrite (collect_lookup tasks ∅ s Hnd), lookup_empty.
    rewrite (dict_get_elem_of s (Ok df) tasks Hnd).
    destruct (dict_get s tasks) as [[df'|e]|]; split; congruence. }
  exists (collect tasks ∅), w'. split_and!.
  - rewrite Hrun. destruct (Nat.eqb_spec (size (collect tasks ∅)) 0); [lia|done].
  - lia.
  - apply set_eq. intros s. rewrite elem_of_dom, elem_of_list_to_set, elem_of_succeeded.
    unfold is_Some. by setoid_rewrite Hlook.
  - exact Hlook.
Qed.

(** C8: a per-symbol load that raises is absorbed whatever the class of its
    exception.  The only exception [load_historical_data] raises is the
    aggregate DataLoaderError, and only when no awaited load returned;
    otherwise it returns the mapping of the loads that returned, from which
    every failing symbol, DataLoaderError or not, is merely left out. *)
Theorem per_symbol_failures_are_absorbed self w :
  let tasks := awaited_tasks self w in
  let outcome := (load_historical_data self w).1 in
  (forall e, outcome = Raise e -> e = DataLoaderError /\ succeeded tasks = [])
  /\ (succeeded tasks <> [] ->
      exists data, outcome = Ok data
        /\ (forall s df, data !! s = Some df <-> (s, Ok df) ∈ tasks)
        /\ (forall s e, (s, Raise e) ∈ tasks -> data !! s = None)).
Proof.
  intros tasks outcome.
  pose proof (awaited_tasks_NoDup self w) as Hnd. fold tasks in Hnd.
  pose proof (collect_size tasks ∅ Hnd (fun k _ => lookup_empty k)) as Hsz.
  rewrite map_size_empty in Hsz.
  destruct (symbols (base self)) as [|s0 syms] eqn:Hs.
  - assert (tasks = []) as Ht.
    { subst tasks. unfold awaited_tasks. rewrite Hs. reflexivity. }
    destruct (load_historical_data_no_symbols self w Hs) as (Hr & _).
    subst outcome. rewrite Hr, Ht. split; [|done].
    intros e [= <-]. done.
  - destruct (load_historical_data_run self w) as (w' & Hrun); [rewrite Hs; done|].
    fold tasks in Hrun. subst outcome. rewrite Hrun. cbn [fst]. rewrite Hsz.
    destruct (succeeded tasks) as [|s1 ss] eqn:Hsucc; cbn.
    + split; [|done]. intros e [= <-]. done.
    + split; [discriminate|]. intros _. eexists. split; [reflexivity|].
      assert (forall s df, collect tasks ∅ !! s = Some df <-> (s, Ok df) ∈ tasks) as Hlook.
      { intros s df. rewrite (collect_lookup tasks ∅ s Hnd), lookup_empty.
        rewrite (dict_get_elem_of s (Ok df) tasks Hnd).
        destruct (dict_get s tasks) as [[df'|e]|]; split; congruence. }
      split; [exact Hlook|].
      intros s e Hin. rewrite (collect_lookup tasks ∅ s Hnd), lookup_empty.
      apply (dict_get_elem_of s (Raise e) tasks Hnd) in Hin. rewrite Hin. done.
Qed.
End Batch.

(** ** The validator *)

Lemma get_column_elem_of cols name c :
  get_column cols name = Some c -> (name, c) ∈ cols.
Proof.
  induction cols as [|[n c'] cols IH]; simpl; [discriminate|].
  destruct (String.eqb n name) eqn:E.
  - apply String.eqb_eq in E. intros [= ->]. subst. left.
  - intros Hc. right. auto.
Qed.

Lemma df_lt0_any_false cols names name :
  df_lt0_any cols names = Ok false -> name ∈ names ->
  exists c, get_column cols name = Some c /\ column_lt0_any c = Ok false.
Proof.
  induction names as [|n names IH]; simpl; [intros _ []%elem_of_nil|].
  destruct (get_column cols n) as [c|] eqn:Hc; [|discriminate].
  destruct (column_lt0_any c) as [b|] eqn:Hb; [|discriminate].
  destruct (df_lt0_any cols names) as [bs|]; [|discriminate].
  intros [= Hor]. apply orb_false_iff in Hor as [-> ->].
  intros [->|Hin]%elem_of_cons; eauto.
Qed.

Lemma duplicated_any_false ix : duplicated_any ix = false -> NoDup ix.
Proof.
  induction ix as [|t ix IH]; simpl; [constructor|].
  intros [Ht Hd]%orb_false_iff. apply bool_decide_eq_false_1 in Ht.
  constructor; auto.
Qed.

Lemma existsb_false_lookup {A} (p : A -> bool) xs i x :
  existsb p xs = false -> xs !! i = Some x -> p x = false.
Proof.
  revert i. induction xs as [|y xs IH]; intros [|i]; simpl; try discriminate.
  - intros [Hp _]%orb_false_iff [= <-]. done.
  - intros [_ Hp]%orb_false_iff. eauto.
Qed.

(** C2 (as amended): on every series [_validate_data] accepts, every bar
    holds all of open, high, low, close and volume as an int or float that
    is neither NaN nor negative, no cell of any column is NaN or missing,
    and the timestamps are pairwise distinct.  (Their order is not
    constrained.) *)
Theorem validate_data_sound df symbol :
  wf_frame df ->
  _validate_data df symbol = Ok tt ->
  index df <> []
  /\ (forall i name, (i < length (index df))%nat -> name ∈ required_columns ->
        exists v, bar_field df name i = Some v /\ nonneg_number v = true)
  /\ (forall name c, (name, c) ∈ columns df -> column_isna_any c = false)
  /\ NoDup (index df).
Proof.
  intros Hwf. unfold _validate_data.
  destruct (df_empty df) eqn:Hempty; [discriminate|].
  destruct (forallb (fun n => bool_decide (is_Some (get_column (columns df) n)))
             required_columns) eqn:Hpresent; [|discriminate]. cbn [negb].
  destruct (df_isna_any df) eqn:Hna; [discriminate|].
  destruct (df_lt0_any (columns df) required_columns) as [[|]|] eqn:Hneg; try discriminate.
  destruct (duplicated_any (index df)) eqn:Hdup; [discriminate|].
  destruct (forallb (fun n => match get_column (columns df) n with
                             | Some c => dtype_is_float_or_int c
                             | None => false
                             end) required_columns) eqn:Hdtype; [|discriminate].
  cbn [negb].
  intros _.
  assert (forall name c, (name, c) ∈ columns df -> column_isna_any c = false) as Hnona.
  { intros name c Hin. unfold df_isna_any in Hna.
    rewrite <- not_true_iff_false, existsb_exists in Hna.
    apply not_true_is_false. intros Hc. apply Hna. exists (name, c).
    split; [by apply list_elem_of_In | done]. }
  split_and!.
  - intros Hix. unfold df_empty in Hempty. rewrite Hix in Hempty. discriminate.
  - intros i name Hi Hname.
    destruct (df_lt0_any_false _ _ name Hneg Hname) as (c & Hc & Hlt).
    rewrite forallb_forall in Hdtype.
    specialize (Hdtype name (proj1 (list_elem_of_In _ _) Hname)). rewrite Hc in Hdtype.
    pose proof (get_column_elem_of _ _ _ Hc) as Hin.
    pose proof (Hnona _ _ Hin) as Hcna.
    unfold wf_frame in Hwf. rewrite Forall_forall in Hwf.
    specialize (Hwf _ Hin). simpl in Hwf. rewrite <- Hwf in Hi.
    unfold bar_field. rewrite Hc.
    destruct c as [xs|xs|xs]; simpl in *; [| |discriminate Hdtype].
    + destruct (lookup_lt_is_Some_2 xs i Hi) as [x Hx]. rewrite Hx. simpl.
      eexists. split; [reflexivity|].
      injection Hlt as Hlt.
      pose proof (existsb_false_lookup _ _ _ _ Hlt Hx) as Hx0.
      pose proof (existsb_false_lookup _ _ _ _ Hcna Hx) as Hx1.
      destruct x as [|[|]|q]; simpl in *; try done.
      apply Z.ltb_ge in Hx0. apply Z.leb_le. lia.
    + destruct (lookup_lt_is_Some_2 xs i Hi) as [z Hz]. rewrite Hz. simpl.
      eexists. split; [reflexivity|].
      injection Hlt as Hlt.
      pose proof (existsb_false_lookup _ _ _ _ Hlt Hz) as Hz0. simpl in Hz0.
      apply Z.ltb_ge in Hz0. apply Z.leb_le. lia.
  - exact Hnona.
  - by apply duplicated_any_false.
Qed.

Lemma validate_data_sound_witness :
  index valid_frame <> []
  /\ (forall i name, (i < length (index valid_frame))%nat -> name ∈ required_columns ->
        exists v, bar_field valid_frame name i = Some v /\ nonneg_number v = true)
  /\ (forall name c, (name, c) ∈ columns valid_frame -> column_isna_any c = false)
  /\ NoDup (index valid_frame).
Proof.
  apply (validate_data_sound valid_frame "AAABTC").
  - repeat constructor.
  - reflexivity.
Defined.

Lemma validated_series_need_not_increase :
  wf_frame unsorted_frame
  /\ _validate_data unsorted_frame "AAABTC" = Ok tt
  /\ strictly_increasing (index unsorted_frame) = false.
Proof. split_and!; [repeat constructor | reflexivity | reflexivity]. Qed.

(** ** The Binance provider *)

Lemma map_result_length {A B} (f : A -> result B) xs ys :
  map_result f xs = Ok ys -> length ys = length xs.
Proof.
  revert ys. induction xs as [|x xs IH]; intros ys; simpl.
  - intros [= <-]. reflexivity.
  - unfold mbind, result_bind. destruct (f x); [|discriminate].
    destruct (map_result f xs) as [ys'|]; [|discriminate].
    intros [= <-]. simpl. f_equal. auto.
Qed.

Lemma pd_DataFrame_length klines names rows :
  pd_DataFrame klines names = Ok rows -> length rows = length klines.
Proof.
  unfold pd_DataFrame. destruct klines as [|k klines]; [intros [= <-]; reflexivity|].
  destruct (Nat.eqb _ _); [|discriminate]. intros [= <-]. cbn. by rewrite length_map.
Qed.

Lemma filter_nil_Forall {A} (P : A -> Prop) `{!forall x, Decision (P x)} (l : list A) :
  filter P l = [] <-> Forall (fun x => ~ P x) l.
Proof.
  induction l as [|x l IH]; [split; [constructor | reflexivity]|].
  destruct (decide (P x)) as [Hx|Hx].
  - rewrite filter_cons_True by done. split; [discriminate|].
    intros Hall. inversion Hall. contradiction.
  - rewrite filter_cons_False by done. rewrite IH, Forall_cons. tauto.
Qed.

Section Klines.
Context `{Conversions}.

Lemma klines_bars_length klines bars :
  klines_bars klines = Ok bars -> length bars = length klines.
Proof.
  unfold klines_bars, mbind, result_bind.
  destruct (pd_DataFrame klines KLINES_COLUMNS) as [rows|] eqn:Hrows; [|discriminate].
  destruct (map_result _ rows) as [stamps|] eqn:Hst; [|discriminate].
  intros [= <-]. apply map_result_length in Hst. apply pd_DataFrame_length in Hrows.
  rewrite length_zip_with, length_map. lia.
Qed.

(** C10 (as amended): [_process_klines] drops exactly the bars that hold a
    NaN after coercion, so the series it returns may be shorter than the
    klines delivered.  When the klines can be framed and indexed it raises
    DataValidationError exactly when no bar is left, and otherwise returns
    the bars that are left as if they were all of them; when framing or
    indexing raises, it raises DataValidationError as well. *)
Theorem process_klines_drops_nan_bars self klines symbol w :
  let outcome := (_process_klines self klines symbol w).1 in
  match klines_bars klines with
  | Ok bars =>
      length bars = length klines
      /\ (outcome = Raise DataValidationError <-> Forall (fun b => bar_has_nan b = true) bars)
      /\ (Exists (fun b => bar_has_nan b = false) bars ->
          outcome = Ok (bars_frame (dropna bars) symbol)
          /\ index (bars_frame (dropna bars) symbol)
             = map fst (filter (fun b => bar_has_nan b = false) bars)
          /\ (length (index (bars_frame (dropna bars) symbol))
              + length (filter (fun b => bar_has_nan b = true) bars) = length klines)%nat)
  | Raise _ => outcome = Raise DataValidationError
  end.
Proof.
  intros outcome. subst outcome.
  destruct (klines_bars klines) as [bars|e] eqn:Hbars.
  - pose proof (klines_bars_length _ _ Hbars) as Hlen.
    revert Hbars. unfold klines_bars, _process_klines. run_M.
    unfold mbind, result_bind.
    destruct (pd_DataFrame klines KLINES_COLUMNS) as [rows|]; [|discriminate].
    destruct (map_result _ rows) as [stamps|]; [|discriminate].
    intros [= Hb]. rewrite Hb. cbn.
    assert (dropna bars = [] <-> Forall (fun b => bar_has_nan b = true) bars) as Hnil.
    { unfold dropna. rewrite filter_nil_Forall. apply Forall_iff.
      intros b. destruct (bar_has_nan b); split; congruence. }
    split; [exact Hlen|]. split.
    + destruct (dropna bars) eqn:Hd; cbn.
      * split; [intros _; by apply Hnil | done].
      * split; [discriminate|]. intros Hall. apply Hnil in Hall. discriminate.
    + intros Hex.
      assert (length (index (bars_frame (dropna bars) symbol))
              + length (filter (fun b => bar_has_nan b = true) bars) = length klines)%nat
        as Hcount.
      { rewrite <- Hlen. cbn [index bars_frame]. rewrite length_map. unfold dropna.
        clear. induction bars as [|b bars IH]; [reflexivity|].
        destruct (bar_has_nan b) eqn:Hn.
        - rewrite filter_cons_False by congruence. rewrite filter_cons_True by done.
          cbn [length]. lia.
        - rewrite filter_cons_True by done. rewrite filter_cons_False by congruence.
          cbn [length]. lia. }
      split; [|split; [reflexivity | exact Hcount]].
      destruct (dropna bars) as [|b0 bs] eqn:Hd; cbn; [|reflexivity].
      destruct Hnil as [Hall _]. specialize (Hall eq_refl).
      apply Exists_exists in Hex as (b & Hin & Hb0).
      rewrite Forall_forall in Hall. specialize (Hall b Hin). congruence.
  - revert Hbars. unfold klines_bars, _process_klines. run_M.
    unfold mbind, result_bind.
    destruct (pd_DataFrame klines KLINES_COLUMNS) as [rows|]; [|reflexivity].
    destruct (map_result _ rows) as [stamps|]; [discriminate|reflexivity].
Qed.

(** C3 (the behaviour of the code): when the ticker query succeeds and no
    symbol ends with the base asset, [get_top_liquid_pairs] raises
    NetworkError: the DataValidationError it raises for the empty result is
    caught by its own handler.  Whatever it raises is a NetworkError. *)
Theorem no_liquid_pairs_raises_NetworkError self base_asset limit w tickers :
  with_client self get_ticker = Ok tickers ->
  Forall (fun t => endswith (ticker_symbol t) base_asset = false) tickers ->
  (binance_get_top_liquid_pairs self base_asset limit w).1 = Raise NetworkError
  /\ forall limit' w' e,
       (binance_get_top_liquid_pairs self base_asset limit' w').1 = Raise e ->
       e = NetworkError.
Proof.
  intros Hq Hnone. split.
  - unfold binance_get_top_liquid_pairs. run_M. rewrite Hq. cbn.
    assert (filter (fun t => endswith (ticker_symbol t) base_asset = true) tickers = []) as ->.
    { apply filter_nil_Forall. eapply Forall_impl; [exact Hnone|]. cbn. congruence. }
    cbn. unfold slice_to. destruct (0 <=? limit); rewrite take_nil; reflexivity.
  - intros limit' w' e. unfold binance_get_top_liquid_pairs. run_M.
    destruct (with_client self get_ticker) as [ts|e0]; cbn; [|intros [= <-]; reflexivity].
    destruct (map_result _ _) as [rel|e1]; cbn; [|intros [= <-]; reflexivity].
    destruct (map fst (slice_to limit' (sorted_desc rel))); cbn;
      [intros [= <-]; reflexivity | discriminate].
Qed.
End Klines.

(** ** The properties at work on the scenarios *)

(** C1, at the failing input: AAABTC is cached with a NaN close, the provider
    would deliver valid klines, and the load raises DataValidationError
    without asking it. *)
Lemma invalid_cached_series_is_raised_witness :
  exists w',
    _load_symbol_data demo_loader "AAABTC"
      (demo_world [(cache_file "AAABTC", Parquet nan_frame)] false)
    = (Raise DataValidationError, w')
    /\ provider_calls (io w') = [].
Proof.
  apply (invalid_cached_series_is_raised demo_loader "AAABTC"
           (demo_world [(cache_file "AAABTC", Parquet nan_frame)] false) nan_frame).
  - vm_compute. reflexivity.
  - vm_compute. reflexivity.
Defined.

(** C6, on a valid cache entry for AAABTC. *)
Lemma valid_cache_hit_skips_provider_witness :
  exists w',
    _load_symbol_data demo_loader "AAABTC"
      (demo_world [(cache_file "AAABTC", Parquet valid_frame)] false)
    = (Ok valid_frame, w')
    /\ provider_calls (io w') = []
    /\ fs w' = {[ cache_file "AAABTC" := Parquet valid_frame ]}.
Proof.
  apply (valid_cache_hit_skips_provider demo_loader "AAABTC"
           (demo_world [(cache_file "AAABTC", Parquet valid_frame)] false) valid_frame).
  - vm_compute. reflexivity.
  - vm_compute. reflexivity.
Defined.

(** C7, on a corrupt cache file in a read-only cache directory: the read and
    the write both raise CacheError and the fetched series is returned. *)
Lemma cache_errors_are_absorbed_witness :
  (_load_symbol_data demo_loader "AAABTC"
     (demo_world [(cache_file "AAABTC", Corrupt)] true)).1 <> Raise CacheError
  /\ (fetch_validate_store demo_loader "AAABTC"
        (_generate_cache_filename demo_base "AAABTC")
        (demo_world [(cache_file "AAABTC", Corrupt)] true)).1 = Ok fetched_frame.
Proof.
  pose proof (cache_errors_are_absorbed demo_loader "AAABTC"
                (demo_world [(cache_file "AAABTC", Corrupt)] true)
                (binance_fetch_ohlcv_not_CacheError demo_loader "AAABTC"))
    as (Hnever & _ & _ & Hwrite).
  split; [exact Hnever|].
  eapply Hwrite.
  - vm_compute. reflexivity.
  - vm_compute. reflexivity.
  - vm_compute. reflexivity.
Defined.

(** C5, on three symbols: AAABTC is fetched, BBBBTC fails at the provider
    with NetworkError, CCCBTC is served from the cache. *)
Lemma partial_failure_returns_the_successes_witness :
  exists data w',
    load_historical_data demo_loader
      (demo_world [(cache_file "CCCBTC", Parquet valid_frame)] false) = (Ok data, w')
    /\ size data = 2%nat
    /\ dom data = list_to_set ["AAABTC"; "CCCBTC"]
    /\ forall s df, data !! s = Some df <->
         (s, Ok df) ∈ [("AAABTC", Ok fetched_frame);
                       ("BBBBTC", Raise NetworkError);
                       ("CCCBTC", Ok valid_frame)].
Proof.
  assert (awaited_tasks demo_loader
            (demo_world [(cache_file "CCCBTC", Parquet valid_frame)] false)
          = [("AAABTC", Ok fetched_frame);
             ("BBBBTC", Raise NetworkError);
             ("CCCBTC", Ok valid_frame)]) as Htasks by (vm_compute; reflexivity).
  pose proof (partial_failure_returns_the_successes demo_loader
                (demo_world [(cache_file "CCCBTC", Parquet valid_frame)] false)) as Hthm.
  cbv zeta in Hthm. rewrite Htasks in Hthm. apply Hthm.
  - vm_compute. lia.
  - repeat constructor; intros e [= <-]; reflexivity.
Defined.

(** C8, on three symbols: BBBBTC fails at the provider with NetworkError and
    the cached frame of CCCBTC makes the validator raise TypeError, which is
    no DataLoaderError; both are left out and the batch returns AAABTC. *)
Lemma per_symbol_failures_are_absorbed_witness :
  exists data,
    (load_historical_data demo_loader
       (demo_world [(cache_file "CCCBTC", Parquet text_frame)] false)).1 = Ok data
    /\ (forall s df, data !! s = Some df <->
          (s, Ok df) ∈ [("AAABTC", Ok fetched_frame);
                        ("BBBBTC", Raise NetworkError);
                        ("CCCBTC", Raise TypeError)])
    /\ (forall s e,
          (s, Raise e) ∈ [("AAABTC", Ok fetched_frame);
                          ("BBBBTC", Raise NetworkError);
                          ("CCCBTC", Raise TypeError)] ->
          data !! s = None).
Proof.
  assert (awaited_tasks demo_loader
            (demo_world [(cache_file "CCCBTC", Parquet text_frame)] false)
          = [("AAABTC", Ok fetched_frame);
             ("BBBBTC", Raise NetworkError);
             ("CCCBTC", Raise TypeError)]) as Htasks by (vm_compute; reflexivity).
  pose proof (per_symbol_failures_are_absorbed demo_loader
                (demo_world [(cache_file "CCCBTC", Parquet text_frame)] false))
    as (_ & Hthm).
  rewrite Htasks in Hthm. apply Hthm. discriminate.
Defined.

(** C3, at the failing input: the ticker query succeeds and lists no symbol
    quoted in BTC. *)
Lemma no_liquid_pairs_raises_NetworkError_witness :
  (binance_get_top_liquid_pairs demo_loader "BTC" 100 empty_world).1 = Raise NetworkError.
Proof.
  refine (proj1 (no_liquid_pairs_raises_NetworkError demo_loader "BTC" 100 empty_world
                   [ {| ticker_symbol := "AAAUSDT"; quoteVolume := PStr "900" |};
                     {| ticker_symbol := "BBBUSDT"; quoteVolume := PStr "700" |} ] _ _)).
  - reflexivity.
  - repeat constructor.
Defined.

(** C10, on three klines of which the second has an unreadable high: two
    bars are returned and nothing is raised. *)
Lemma process_klines_drops_nan_bars_witness :
  (_process_klines demo_loader demo_klines "AAABTC" empty_world).1 = Ok fetched_frame
  /\ length (index fetched_frame) = 2%nat
  /\ length demo_klines = 3%nat.
Proof.
  pose proof (process_klines_drops_nan_bars demo_loader demo_klines "AAABTC" empty_world)
    as Hthm.
  assert (klines_bars demo_klines
          = Ok [(Ts 60000, [Fin 10; Fin 12; Fin 9; Fin 11; Fin 500]);
                (Ts 120000, [Fin 11; NaN; Fin 10; Fin 12; Fin 400]);
                (Ts 180000, [Fin 12; Fin 14; Fin 11; Fin 13; Fin 300])]) as Hbars
    by (vm_compute; reflexivity).
  cbv zeta in Hthm. rewrite Hbars in Hthm. destruct Hthm as (_ & _ & Hsome).
  destruct Hsome as (Hout & _ & _).
  - apply Exists_cons_hd. reflexivity.
  - split; [exact Hout | split; reflexivity].
Defined.

(** The claim C10 as it was stated fails on a kline of thirteen cells: none
    of its price and volume cells is NaN after coercion, so no row is
    dropped, and DataValidationError is raised all the same. *)
Lemma process_klines_raises_without_dropping :
  (_process_klines demo_loader wide_klines "AAABTC" empty_world).1
    = Raise DataValidationError
  /\ Forall (fun row => row_has_nan row = false) wide_klines
  /\ wide_klines <> [].
Proof. split_and!; [vm_compute; reflexivity | repeat constructor | discriminate]. Qed.

(** ** Runs of the code at the inputs where it departs from the spec *)

(** With an invalid cache entry the caller gets the validation error; had
    the entry been missing, the same provider would have served the symbol. *)
Example invalid_cache_entry_versus_miss :
  (_load_symbol_data demo_loader "AAABTC"
     (demo_world [(cache_file "AAABTC", Parquet nan_frame)] false)).1
    = Raise DataValidationError
  /\ (_load_symbol_data demo_loader "AAABTC" (demo_world [] false)).1 = Ok fetched_frame.
Proof. split; vm_compute; reflexivity. Qed.

(** A batch over no symbol, and a batch in which every load fails. *)
Example empty_and_failing_batches :
  (load_historical_data
     {| loader_base := {| symbols := []; start_date := ""; end_date := "";
                          timeframe := ""; cache_dir := "data" |};
        base_asset := "BTC"; pairs_limit := 100; client := Some demo_client |}
     empty_world).1 = Raise DataLoaderError
  /\ (load_historical_data
        {| loader_base := {| symbols := ["BBBBTC"; "CCCBTC"]; start_date := "";
                             end_date := ""; timeframe := "1m"; cache_dir := "data" |};
           base_asset := "BTC"; pairs_limit := 100; client := Some demo_client |}
        empty_world).1 = Raise DataLoaderError.
Proof. split; vm_compute; reflexivity. Qed.

(** * Further properties of the loader *)

Lemma cache_writes_app evs1 evs2 :
  cache_writes (evs1 ++ evs2) = cache_writes evs1 ++ cache_writes evs2.
Proof. apply omap_app. Qed.

Lemma string_length_app (s t : string) :
  String.length (s +:+ t) = (String.length s + String.length t)%nat.
Proof. induction s as [|c s IH]; simpl; [reflexivity | by rewrite IH]. Qed.

Lemma string_app_inv_tail (s1 s2 t : string) : s1 +:+ t = s2 +:+ t -> s1 = s2.
Proof.
  intros Heq. pose proof (f_equal String.length Heq) as Hlen.
  rewrite !string_length_app in Hlen.
  assert (String.length s1 = String.length s2) as Hl by lia. clear Hlen.
  revert s2 Heq Hl. induction s1 as [|c s1 IH]; intros [|c2 s2]; simpl; try discriminate.
  - reflexivity.
  - intros [= -> Heq] [= Hl]. f_equal. auto.
Qed.

(** X1: within one loader run, distinct symbols get distinct cache
    filenames: the filename determines the symbol. *)
Theorem cache_filename_injective_in_symbol (self : BaseDataLoader) symbol1 symbol2 :
  _generate_cache_filename self symbol1 = _generate_cache_filename self symbol2 ->
  symbol1 = symbol2.
Proof.
  unfold _generate_cache_filename. apply string_app_inv_tail.
Qed.

Lemma cache_filename_injective_in_symbol_witness :
  "AAABTC" = "AAABTC".
Proof.
  apply (cache_filename_injective_in_symbol demo_base "AAABTC" "AAABTC"). reflexivity.
Defined.

(** X2: [_load_from_cache] returns None exactly when the file does not exist
    (and then reads nothing), returns the stored frame when the file is
    readable, and raises CacheError, never anything else, when it is not.
    It leaves the files as they are. *)
Theorem load_from_cache_outcomes (self : BaseDataLoader) filename w :
  let path := cache_path self filename in
  let run := _load_from_cache self filename w in
  fs run.2 = fs w
  /\ match fs w !! path with
     | None => run.1 = Ok None /\ io run.2 = io w ++ [FsExists path]
     | Some (Parquet df) => run.1 = Ok (Some df)
     | Some Corrupt => run.1 = Raise CacheError
     end.
Proof.
  intros path run. subst run path. unfold _load_from_cache, path_exists, read_parquet.
  run_M. destruct (fs w !! cache_path self filename) as [[df|]|] eqn:Hf; simpl;
    rewrite ?Hf; simpl; auto.
Qed.


Section StoreFacts.
Context {L : Type} `{DataLoader L}.
Implicit Types (self : L) (symbol : string) (w : world).

(** The three ways the second half of the pipeline can end. *)
Lemma fetch_validate_store_run self symbol filename w :
  match fetch_ohlcv self symbol (emit (ProviderFetch symbol) w).2 with
  | (Raise e, w1) => fetch_validate_store self symbol filename w = (Raise e, w1)
  | (Ok fresh, w1) =>
      match _validate_data fresh symbol with
      | Raise e => fetch_validate_store self symbol filename w = (Raise e, w1)
      | Ok _ =>
          exists w2,
            fetch_validate_store self symbol filename w = (Ok fresh, w2)
            /\ write_fails w2 = write_fails w1
            /\ io w2 = io w1 ++ [FsWrite (cache_path (base self) filename)]
            /\ fs w2 = if write_fails w1 (cache_path (base self) filename)
                       then fs w1
                       else <[cache_path (base self) filename := Parquet fresh]> (fs w1)
      end
  end.
Proof.
  unfold fetch_validate_store, _save_to_cache, to_parquet. run_M.
  destruct (fetch_ohlcv self symbol _) as [[fresh|e] w1]; simpl; [|reflexivity].
  destruct (_validate_data fresh symbol) as [[]|e]; simpl; [|reflexivity].
  destruct (write_fails w1 _); simpl; eexists; split_and!; reflexivity.
Qed.

(** The first half of the pipeline, with the calls it makes. *)
Lemma load_symbol_data_steps self symbol w :
  let filename := _generate_cache_filename (base self) symbol in
  let path := cache_path (base self) filename in
  match fs w !! path with
  | Some (Parquet df) =>
      exists w',
        _load_symbol_data self symbol w =
          (match _validate_data df symbol with Ok _ => Ok df | Raise e => Raise e end, w')
        /\ fs w' = fs w /\ write_fails w' = write_fails w
        /\ io w' = io w ++ [FsExists path; FsRead path]
  | Some Corrupt =>
      exists w',
        _load_symbol_data self symbol w = fetch_validate_store self symbol filename w'
        /\ fs w' = fs w /\ write_fails w' = write_fails w
        /\ io w' = io w ++ [FsExists path; FsRead path]
  | None =>
      exists w',
        _load_symbol_data self symbol w = fetch_validate_store self symbol filename w'
        /\ fs w' = fs w /\ write_fails w' = write_fails w
        /\ io w' = io w ++ [FsExists path]
  end.
Proof.
  intros filename path. subst filename path.
  destruct (fs w !! _) as [[df|]|] eqn:Hfile;
    unfold _load_symbol_data, _load_from_cache, path_exists, read_parquet;
    run_M; repeat (rewrite Hfile; simpl).
  - destruct (_validate_data df symbol) as [[]|e] eqn:Hv; simpl.
    + eexists. split; [reflexivity|]. simpl. rewrite <- app_assoc. auto.
    + rewrite (validate_data_not_CacheError _ _ _ Hv).
      eexists. split; [reflexivity|]. simpl. rewrite <- app_assoc. auto.
  - eexists. split; [reflexivity|]. simpl. rewrite <- app_assoc. auto.
  - eexists. split; [reflexivity|]. simpl. auto.
Qed.
End StoreFacts.

Section BinanceFrame.
Context `{Conversions}.

(** The Binance provider only logs: it touches neither the files nor the
    call log. *)
Lemma process_klines_frame self klines symbol w :
  fs (_process_klines self klines symbol w).2 = fs w
  /\ write_fails (_process_klines self klines symbol w).2 = write_fails w
  /\ io (_process_klines self klines symbol w).2 = io w.
Proof.
  unfold _process_klines. run_M.
  destruct (pd_DataFrame klines KLINES_COLUMNS) as [rows|e1]; simpl; [|auto].
  destruct (map_result _ rows) as [stamps|e2]; simpl; [|auto].
  destruct (dropna _); simpl; auto.
Qed.

Lemma binance_fetch_ohlcv_frame self symbol w :
  fs (binance_fetch_ohlcv self symbol w).2 = fs w
  /\ write_fails (binance_fetch_ohlcv self symbol w).2 = write_fails w
  /\ io (binance_fetch_ohlcv self symbol w).2 = io w.
Proof.
  unfold binance_fetch_ohlcv. run_M.
  destruct (with_client self _) as [klines|e1]; simpl.
  - destruct klines as [|k klines]; simpl; [auto|].
    match goal with |- context [_process_klines self ?ks symbol ?w0] =>
      pose proof (process_klines_frame self ks symbol w0) as (Hfs & Hwf & Hio);
      destruct (_process_klines self ks symbol w0) as [[df|e2] w2] end; simpl in *.
    + auto.
    + destruct (is_DataValidationError e2); simpl; auto.
  - destruct (is_DataValidationError e1); simpl; auto.
Qed.

(** X4: a load of the Binance loader that raises has not touched the cache:
    the files are as before and no write was attempted. *)
Theorem failed_load_leaves_cache_untouched (self : BinanceDataLoader) symbol w e :
  (_load_symbol_data self symbol w).1 = Raise e ->
  fs (_load_symbol_data self symbol w).2 = fs w
  /\ cache_writes (io (_load_symbol_data self symbol w).2) = cache_writes (io w).
Proof.
  set (filename := _generate_cache_filename (base self) symbol).
  assert (forall w0 e0, (fetch_validate_store self symbol filename w0).1 = Raise e0 ->
            fs (fetch_validate_store self symbol filename w0).2 = fs w0
            /\ io (fetch_validate_store self symbol filename w0).2
               = io w0 ++ [ProviderFetch symbol]) as Hfvs.
  { intros w0 e0.
    pose proof (fetch_validate_store_run self symbol filename w0) as Hrun.
    pose proof (binance_fetch_ohlcv_frame self symbol (emit (ProviderFetch symbol) w0).2)
      as (Hfs & _ & Hio).
    change (binance_fetch_ohlcv self symbol) with (fetch_ohlcv self symbol) in Hfs, Hio.
    destruct (fetch_ohlcv self symbol _) as [[fresh|e1] w1]; simpl in Hfs, Hio.
    - destruct (_validate_data fresh symbol) as [[]|e1].
      + destruct Hrun as (w2 & -> & _). discriminate.
      + rewrite Hrun. simpl. auto.
    - rewrite Hrun. simpl. auto. }
  intros Hraise.
  pose proof (load_symbol_data_steps self symbol w) as Hsteps. cbv zeta in Hsteps.
  fold filename in Hsteps.
  destruct (fs w !! cache_path (base self) filename) as [[df|]|].
  - destruct Hsteps as (w' & Hrun & Hfs & _ & Hio). rewrite Hrun. simpl.
    rewrite Hio, cache_writes_app, app_nil_r. auto.
  - destruct Hsteps as (w' & Hrun & Hfs & _ & Hio). rewrite Hrun in *.
    destruct (Hfvs w' e Hraise) as (-> & ->).
    rewrite Hio, !cache_writes_app, !app_nil_r. auto.
  - destruct Hsteps as (w' & Hrun & Hfs & _ & Hio). rewrite Hrun in *.
    destruct (Hfvs w' e Hraise) as (-> & ->).
    rewrite Hio, !cache_writes_app, !app_nil_r. auto.
Qed.
End BinanceFrame.

Section BinancePipeline.
Context `{Conversions}.

(** X5: after a load of the Binance loader that had to fetch (the cache
    entry was missing or unreadable) and could write, the cache holds the
    series it returned, and a second load of the symbol returns the same
    series without another provider call. *)
Theorem miss_then_hit (self : BinanceDataLoader) symbol w df w1 :
  let path := cache_path (base self) (_generate_cache_filename (base self) symbol) in
  (forall cached, fs w !! path <> Some (Parquet cached)) ->
  write_fails w path = false ->
  _load_symbol_data self symbol w = (Ok df, w1) ->
  fs w1 !! path = Some (Parquet df)
  /\ provider_calls (io w1) = provider_calls (io w) ++ [symbol]
  /\ exists w2, _load_symbol_data self symbol w1 = (Ok df, w2)
       /\ provider_calls (io w2) = provider_calls (io w1)
       /\ fs w2 = fs w1.
Proof.
  intros path Hmiss Hwritable Hload.
  set (filename := _generate_cache_filename (base self) symbol) in *.
  assert (exists w', _load_symbol_data self symbol w = fetch_validate_store self symbol filename w'
            /\ fs w' = fs w /\ write_fails w' = write_fails w
            /\ provider_calls (io w') = provider_calls (io w)) as (w' & Hrun & Hfs & Hwf & Hio).
  { pose proof (load_symbol_data_steps self symbol w) as Hsteps. cbv zeta in Hsteps.
    fold filename in Hsteps. fold path in Hsteps.
    destruct (fs w !! path) as [[cached|]|] eqn:Hfile.
    - exfalso. by eapply Hmiss.
    - destruct Hsteps as (w' & Hrun & Hfs & Hwf & Hio). exists w'.
      rewrite Hio, provider_calls_app, app_nil_r. auto.
    - destruct Hsteps as (w' & Hrun & Hfs & Hwf & Hio). exists w'.
      rewrite Hio, provider_calls_app, app_nil_r. auto. }
  rewrite Hrun in Hload.
  pose proof (fetch_validate_store_run self symbol filename w') as Hstore.
  pose proof (binance_fetch_ohlcv_frame self symbol (emit (ProviderFetch symbol) w').2)
    as (Hffs & Hfwf & Hfio).
  change (binance_fetch_ohlcv self symbol) with (fetch_ohlcv self symbol) in Hffs, Hfwf, Hfio.
  destruct (fetch_ohlcv self symbol _) as [[fresh|e] wf]; simpl in Hffs, Hfwf, Hfio;
    [|rewrite Hstore in Hload; discriminate].
  destruct (_validate_data fresh symbol) as [[]|e] eqn:Hvalid;
    [|rewrite Hstore in Hload; discriminate].
  destruct Hstore as (w2 & Hstore & Hwf2 & Hio2 & Hfs2).
  rewrite Hstore in Hload. injection Hload as -> ->.
  fold path in Hfs2, Hio2.
  rewrite Hfwf, Hwf, Hwritable in Hfs2.
  assert (fs w1 !! path = Some (Parquet df)) as Hstored
    by (rewrite Hfs2; apply lookup_insert_eq).
  split; [exact Hstored|]. split.
  - rewrite Hio2, Hfio, !provider_calls_app, Hio. simpl. by rewrite app_nil_r.
  - destruct (load_symbol_data_cached self symbol w1 df Hstored)
      as (w3 & (Hfs3 & _ & Hio3) & Hagain).
    rewrite Hvalid in Hagain. eauto.
Qed.

(** X6: the errors of [fetch_ohlcv].  It raises nothing but
    DataValidationError and NetworkError: NetworkError when there is no
    client or the request raises anything that is no DataValidationError,
    DataValidationError when the request returns no kline. *)
Theorem fetch_ohlcv_error_taxonomy (self : BinanceDataLoader) symbol w :
  let outcome := (binance_fetch_ohlcv self symbol w).1 in
  let request c :=
    get_historical_klines c symbol (timeframe (loader_base self))
      (start_date (loader_base self)) (end_date (loader_base self)) in
  (forall e, outcome = Raise e -> e = DataValidationError \/ e = NetworkError)
  /\ (client self = None -> outcome = Raise NetworkError)
  /\ (forall c, client self = Some c -> request c = Ok [] ->
        outcome = Raise DataValidationError)
  /\ (forall c e, client self = Some c -> request c = Raise e ->
        outcome = Raise (if is_DataValidationError e then DataValidationError
                         else NetworkError)).
Proof.
  intros outcome request. subst outcome request. split_and!.
  - intros e. apply binance_fetch_ohlcv_raises.
  - intros Hc. unfold binance_fetch_ohlcv, with_client. run_M. rewrite Hc. reflexivity.
  - intros c Hc Hr. unfold binance_fetch_ohlcv, with_client. run_M. rewrite Hc, Hr.
    reflexivity.
  - intros c e Hc Hr. unfold binance_fetch_ohlcv, with_client. run_M. rewrite Hc, Hr.
    simpl. destruct e; reflexivity.
Qed.
End BinancePipeline.

Section CleanFrames.
Context `{Conversions}.




End CleanFrames.

(** ** The liquidity ranking *)

Lemma float_ltb_asym a b : float_ltb a b = true -> float_ltb b a = false.
Proof.
  destruct a as [|[|]|x], b as [|[|]|y]; simpl; try done.
  rewrite <- (Qcompare_antisym x y). destruct (x ?= y)%Q; simpl; done.
Qed.

Lemma insert_desc_perm x l : insert_desc x l ≡ₚ x :: l.
Proof.
  induction l as [|y l IH]; simpl; [done|].
  destruct (float_ltb x.2 y.2); [|done].
  rewrite IH. apply Permutation_swap.
Qed.

Lemma sorted_desc_perm l : sorted_desc l ≡ₚ l.
Proof.
  unfold sorted_desc. induction l as [|x l IH]; simpl; [done|].
  rewrite insert_desc_perm. by constructor.
Qed.

Lemma insert_desc_never_ascends x l :
  never_ascends (map snd l) = true -> never_ascends (map snd (insert_desc x l)) = true.
Proof.
  induction l as [|y l IH]; [reflexivity|].
  intros Hl. cbn [insert_desc]. destruct (float_ltb x.2 y.2) eqn:Hxy.
  - assert (never_ascends (map snd (insert_desc x l)) = true) as Hins.
    { apply IH. destruct l; [reflexivity|]. cbn in Hl |- *.
      by apply andb_true_iff in Hl as [_ ?]. }
    destruct l as [|z l]; cbn [insert_desc] in *.
    + cbn. by rewrite (float_ltb_asym _ _ Hxy).
    + destruct (float_ltb x.2 z.2) eqn:Hxz.
      * cbn in Hl |- *. apply andb_true_iff in Hl as [Hyz _].
        rewrite Hyz. exact Hins.
      * change (never_ascends (y.2 :: x.2 :: map snd (z :: l)) = true).
        cbn [never_ascends]. rewrite (float_ltb_asym _ _ Hxy). exact Hins.
  - change (never_ascends (x.2 :: y.2 :: map snd l) = true).
    cbn [never_ascends]. rewrite Hxy. exact Hl.
Qed.

Lemma sorted_desc_never_ascends l : never_ascends (map snd (sorted_desc l)) = true.
Proof.
  unfold sorted_desc. induction l as [|x l IH]; [reflexivity|].
  cbn [foldr]. by apply insert_desc_never_ascends.
Qed.

Lemma map_result_Forall2 {A B} (f : A -> result B) xs ys :
  map_result f xs = Ok ys -> Forall2 (fun x y => f x = Ok y) xs ys.
Proof.
  revert ys. induction xs as [|x xs IH]; intros ys; simpl.
  - intros [= <-]. constructor.
  - unfold mbind, result_bind. destruct (f x) as [y|] eqn:Hx; [|discriminate].
    destruct (map_result f xs) as [ys'|]; [|discriminate].
    intros [= <-]. constructor; auto.
Qed.

Lemma slice_to_prefix {A} limit (xs : list A) :
  exists rest, xs = slice_to limit xs ++ rest
    /\ (0 <= limit -> Z.of_nat (length (slice_to limit xs)) <= limit).
Proof.
  unfold slice_to. destruct (0 <=? limit) eqn:Hl.
  - exists (drop (Z.to_nat limit) xs). split; [by rewrite take_drop|].
    intros _. rewrite length_take. apply Z.leb_le in Hl. lia.
  - exists (drop (Z.to_nat (Z.of_nat (length xs) + limit)) xs).
    split; [by rewrite take_drop|]. apply Z.leb_gt in Hl. lia.
Qed.

Section Ranking.
Context `{Conversions}.

(** X8: what [get_top_liquid_pairs] returns when it returns.  The list is
    not empty and, for a limit that is not negative, no longer than the
    limit.  It is the front of a ranking of all tickers whose symbol ends
    with the base asset, each with the float its quote volume reads as: the
    ranking holds each of them once and its volumes never grow from one
    rank to the next. *)
Theorem liquid_pairs_are_ranked_matches self base_asset limit w pairs :
  (binance_get_top_liquid_pairs self base_asset limit w).1 = Ok pairs ->
  pairs <> []
  /\ (0 <= limit -> Z.of_nat (length pairs) <= limit)
  /\ exists tickers relevant ranked rest,
       with_client self get_ticker = Ok tickers
       /\ Forall2 (fun t p => p.1 = ticker_symbol t /\ py_float (quoteVolume t) = Ok p.2)
            (filter (fun t => endswith (ticker_symbol t) base_asset = true) tickers)
            relevant
       /\ ranked ++ rest ≡ₚ relevant
       /\ never_ascends (map snd (ranked ++ rest)) = true
       /\ pairs = map fst ranked.
Proof.
  unfold binance_get_top_liquid_pairs. run_M.
  destruct (with_client self get_ticker) as [tickers|e0]; cbn; [|discriminate].
  destruct (map_result _ _) as [relevant|e1] eqn:Hrel; cbn; [|discriminate].
  destruct (slice_to_prefix limit (sorted_desc relevant)) as (rest & Hsplit & Hlen).
  destruct (map fst (slice_to limit (sorted_desc relevant))) as [|p ps] eqn:Hpairs; cbn;
    [discriminate|].
  intros [= <-]. split; [discriminate|]. split.
  - intros Hl. rewrite <- Hpairs, length_map. auto.
  - exists tickers, relevant, (slice_to limit (sorted_desc relevant)), rest.
    split; [reflexivity|]. split_and!.
    + apply map_result_Forall2 in Hrel. eapply Forall2_impl; [exact Hrel|].
      cbn. intros t q. unfold mbind, result_bind.
      destruct (py_float (quoteVolume t)); [|discriminate]. intros [= <-]. auto.
    + rewrite <- Hsplit. apply sorted_desc_perm.
    + rewrite <- Hsplit. apply sorted_desc_never_ascends.
    + by rewrite Hpairs.
Qed.
End Ranking.

Section ConnectionFacts.
Context `{Conversions}.


(** X9: with a limit of zero [get_top_liquid_pairs] raises NetworkError
    whatever the tickers are: the empty slice is reported as a failed
    fetch. *)
Theorem zero_limit_raises_NetworkError self base_asset w :
  (binance_get_top_liquid_pairs self base_asset 0 w).1 = Raise NetworkError.
Proof.
  unfold binance_get_top_liquid_pairs. run_M.
  destruct (with_client self get_ticker) as [ts|e0]; cbn; [|reflexivity].
  destruct (map_result _ _) as [rel|e1]; cbn; [|reflexivity].
  unfold slice_to. cbn. reflexivity.
Qed.

End ConnectionFacts.

(** ** Batches *)

Lemma dict_get_set {V} k k' (v : V) d :
  dict_get k' (dict_set k v d) = if String.eqb k k' then Some v else dict_get k' d.
Proof.
  induction d as [|[k0 v0] d IH]; simpl.
  - reflexivity.
  - destruct (String.eqb k0 k) eqn:E; simpl.
    + apply String.eqb_eq in E. subst k0. destruct (String.eqb k k'); reflexivity.
    + rewrite IH. destruct (String.eqb k0 k') eqn:E'; [|reflexivity].
      apply String.eqb_eq in E'. subst k0. rewrite String.eqb_sym, E. reflexivity.
Qed.

Lemma dict_get_Some_key {V} k (v : V) d : dict_get k d = Some v -> k ∈ map fst d.
Proof.
  induction d as [|[k0 v0] d IH]; simpl; [discriminate|].
  destruct (String.eqb k0 k) eqn:E.
  - apply String.eqb_eq in E. subst. intros _. left.
  - intros Hd. right. auto.
Qed.

Section BatchFacts.
Context {L : Type} `{DataLoader L}.
Implicit Types (self : L) (w : world) (tasks : list (string * result DataFrame)).

Lemma create_tasks_keys self syms tasks w tasks' w' :
  create_tasks self syms tasks w = (Ok tasks', w') ->
  forall s, s ∈ map fst tasks' -> s ∈ map fst tasks \/ s ∈ syms.
Proof.
  revert tasks w. induction syms as [|s0 syms IH]; intros tasks w; simpl.
  - intros [= <- <-]. auto.
  - unfold run_task. run_M. destruct (_load_symbol_data self s0 w) as [r w1].
    intros Hrun s Hs. destruct (IH _ _ Hrun s Hs) as [Hin|Hin].
    + rewrite dict_set_keys in Hin. case_bool_decide.
      * auto.
      * apply elem_of_app in Hin as [?|Hin]; [auto|].
        apply list_elem_of_singleton in Hin. subst. right. left.
    + right. by right.
Qed.

Lemma load_historical_data_from_tasks self w tasks w1 :
  symbols (base self) <> [] ->
  create_tasks self (symbols (base self)) []
    (log INFO ("Starting data load for " +:+ pretty (length (symbols (base self)))
               +:+ " symbols") w).2 = (Ok tasks, w1) ->
  exists w2,
    load_historical_data self w =
      (if Nat.eqb (size (collect tasks ∅)) 0 then Raise DataLoaderError
       else Ok (collect tasks ∅), w2)
    /\ io w2 = io w1 /\ fs w2 = fs w1.
Proof.
  intros Hne. unfold load_historical_data.
  destruct (symbols (base self)) as [|s syms] eqn:Hs; [done|].
  unfold mbind, mret, M_bind, M_ret, raise, log. cbn -[create_tasks await_tasks].
  intros ->.
  destruct (await_tasks_spec tasks ∅ w1) as (w2 & -> & Hio & Hfs).
  destruct (Nat.eqb (size (collect tasks ∅)) 0); cbn; eauto.
Qed.

Lemma load_historical_data_keys self w data s df :
  (load_historical_data self w).1 = Ok data ->
  data !! s = Some df ->
  s ∈ symbols (base self).
Proof.
  intros Hrun Hs.
  destruct (symbols (base self)) as [|s0 syms] eqn:Hsyms.
  - destruct (load_historical_data_no_symbols self w Hsyms) as (Hr & _). congruence.
  - destruct (create_tasks_total self (s0 :: syms) []
                (log INFO ("Starting data load for " +:+ pretty (length (s0 :: syms))
                           +:+ " symbols") w).2) as (tasks & w1 & Hct & Hnd).
    rewrite <- Hsyms in Hct.
    destruct (load_historical_data_from_tasks self w tasks w1) as (w2 & Hload & _);
      [rewrite Hsyms; done | exact Hct |].
    rewrite Hload in Hrun. cbn in Hrun.
    destruct (Nat.eqb (size (collect tasks ∅)) 0); [discriminate|].
    injection Hrun as <-.
    rewrite (collect_lookup tasks ∅ s (Hnd (NoDup_nil_2))), lookup_empty in Hs.
    destruct (dict_get s tasks) as [r|] eqn:Hd; [|destruct (dict_get s tasks); discriminate].
    apply dict_get_Some_key in Hd.
    destruct (create_tasks_keys _ _ _ _ _ _ Hct s Hd) as [Hin|Hin].
    + by apply elem_of_nil in Hin.
    + by rewrite <- Hsyms.
Qed.

(** X11: the mapping [load_historical_data] returns has no key outside the
    configured symbol list. *)
Theorem result_keys_are_listed_symbols self w data s df :
  (load_historical_data self w).1 = Ok data ->
  data !! s = Some df ->
  s ∈ symbols (base self).
Proof. apply load_historical_data_keys. Qed.

Lemma create_tasks_hits self (cached : string -> DataFrame) syms tasks w :
  (forall s, s ∈ syms ->
     fs w !! cache_path (base self) (_generate_cache_filename (base self) s)
       = Some (Parquet (cached s))
     /\ _validate_data (cached s) s = Ok tt) ->
  exists tasks' w',
    create_tasks self syms tasks w = (Ok tasks', w')
    /\ fs w' = fs w
    /\ provider_calls (io w') = provider_calls (io w)
    /\ cache_writes (io w') = cache_writes (io w)
    /\ forall s, dict_get s tasks' =
         if bool_decide (s ∈ syms) then Some (Ok (cached s)) else dict_get s tasks.
Proof.
  revert tasks w. induction syms as [|s0 syms IH]; intros tasks w Hhit.
  - exists tasks, w. split_and!; try done.
  - destruct (Hhit s0) as (Hfile & Hvalid); [left|].
    pose proof (load_symbol_data_steps self s0 w) as Hstep. cbv zeta in Hstep.
    rewrite Hfile, Hvalid in Hstep. destruct Hstep as (w1 & Hload & Hfs & _ & Hio).
    destruct (IH (dict_set s0 (Ok (cached s0)) tasks) w1) as (tasks' & w' & Hct & Hfs' & Hp & Hc & Hget).
    { intros s Hs. rewrite Hfs. apply Hhit. by right. }
    exists tasks', w'. split_and!.
    + cbn [create_tasks]. unfold run_task. run_M. rewrite Hload. exact Hct.
    + congruence.
    + rewrite Hp, Hio, provider_calls_app, app_nil_r. reflexivity.
    + rewrite Hc, Hio, cache_writes_app, app_nil_r. reflexivity.
    + intros s. rewrite Hget, dict_get_set.
      destruct (String.eqb s0 s) eqn:E.
      * apply String.eqb_eq in E. subst s0.
        rewrite (bool_decide_eq_true_2 (s ∈ s :: syms)) by left.
        by case_bool_decide.
      * apply String.eqb_neq in E.
        destruct (bool_decide (s ∈ syms)) eqn:B.
        -- apply bool_decide_eq_true_1 in B.
           by rewrite (bool_decide_eq_true_2 (s ∈ s0 :: syms)) by (by right).
        -- apply bool_decide_eq_false_1 in B.
           rewrite (bool_decide_eq_false_2 (s ∈ s0 :: syms)); [done|].
           rewrite elem_of_cons. intros [->|?]; done.
Qed.

(** X12: when every configured symbol has a readable cache entry that
    passes validation, [load_historical_data] returns exactly those cached
    series, one per configured symbol, without a single provider call or
    cache write, and leaves the files as they are. *)
Theorem all_cached_batch_skips_provider self (cached : string -> DataFrame) w :
  symbols (base self) <> [] ->
  (forall s, s ∈ symbols (base self) ->
     fs w !! cache_path (base self) (_generate_cache_filename (base self) s)
       = Some (Parquet (cached s))
     /\ _validate_data (cached s) s = Ok tt) ->
  exists data w',
    load_historical_data self w = (Ok data, w')
    /\ fs w' = fs w
    /\ provider_calls (io w') = provider_calls (io w)
    /\ cache_writes (io w') = cache_writes (io w)
    /\ forall s, data !! s =
         if bool_decide (s ∈ symbols (base self)) then Some (cached s) else None.
Proof.
  intros Hne Hhit.
  set (started := (log INFO ("Starting data load for " +:+
                     pretty (length (symbols (base self))) +:+ " symbols") w).2).
  destruct (create_tasks_hits self cached (symbols (base self)) [] started)
    as (tasks & w1 & Hct & Hfs & Hp & Hc & Hget); [exact Hhit|].
  destruct (create_tasks_total self (symbols (base self)) [] started)
    as (tasks0 & w0 & Hct0 & Hnd).
  rewrite Hct in Hct0. injection Hct0 as <- <-.
  specialize (Hnd (NoDup_nil_2)).
  destruct (load_historical_data_from_tasks self w tasks w1 Hne Hct)
    as (w2 & Hload & Hio2 & Hfs2).
  assert (forall s, collect tasks ∅ !! s =
            if bool_decide (s ∈ symbols (base self)) then Some (cached s) else None) as Hlook.
  { intros s. rewrite (collect_lookup tasks ∅ s Hnd), lookup_empty, Hget.
    by case_bool_decide. }
  assert (size (collect tasks ∅) <> 0%nat) as Hsize.
  { destruct (symbols (base self)) as [|s0 syms] eqn:Hsyms; [done|].
    intros Hz. apply map_size_empty_iff in Hz.
    specialize (Hlook s0). rewrite Hz, lookup_empty in Hlook.
    rewrite bool_decide_eq_true_2 in Hlook by left. discriminate. }
  exists (collect tasks ∅), w2. split_and!.
  - rewrite Hload. destruct (Nat.eqb_spec (size (collect tasks ∅)) 0); done.
  - by rewrite Hfs2, Hfs.
  - by rewrite Hio2, Hp.
  - by rewrite Hio2, Hc.
  - exact Hlook.
Qed.
End BatchFacts.

Section EntryPoint.
Context `{Conversions}.

End EntryPoint.

(** ** Result tables *)

Lemma elem_of_flat_map {A B} (f : A -> list B) (l : list A) (x : B) :
  x ∈ flat_map f l <-> exists y, y ∈ l /\ x ∈ f y.
Proof.
  rewrite list_elem_of_In, in_flat_map. split.
  - intros (y & Hy & Hx). exists y. by rewrite !list_elem_of_In.
  - intros (y & Hy & Hx). exists y. by rewrite <- !list_elem_of_In.
Qed.

(** X14: the long format.  [_format_results] raises KeyError when either
    key is missing.  Otherwise its rows all carry the strategy name and are
    exactly one row per symbol value of each metric followed by one row,
    under the symbol "overall", per overall metric. *)
Theorem format_results_rows strategy_name results :
  match by_symbol results, overall results with
  | Some per_symbol, Some totals =>
      exists rows,
        _format_results strategy_name results = Ok rows
        /\ length rows =
           (sum_list (map (fun mv => length mv.2) per_symbol) + length totals)%nat
        /\ forall r, r ∈ rows <->
             row_strategy r = strategy_name
             /\ ((exists values, (row_metric r, values) ∈ per_symbol
                                 /\ (row_symbol r, row_value r) ∈ values)
                 \/ (row_symbol r = "overall" /\ (row_metric r, row_value r) ∈ totals))
  | _, _ => _format_results strategy_name results = Raise KeyError
  end.
Proof.
  unfold _format_results, getitem, mbind, result_bind.
  destruct (by_symbol results) as [per_symbol|]; [|reflexivity].
  destruct (overall results) as [totals|]; [|reflexivity].
  eexists. split; [reflexivity|]. split.
  - rewrite length_app, length_map. f_equal.
    induction per_symbol as [|mv per_symbol IH]; [reflexivity|].
    cbn. rewrite length_app, length_map, IH. reflexivity.
  - intros r. rewrite elem_of_app, list_elem_of_fmap, elem_of_flat_map.
    split.
    + intros [(mv & Hmv & Hr)|(mv & -> & Hmv)].
      * apply list_elem_of_fmap in Hr as (sv & -> & Hsv). cbn.
        split; [reflexivity|]. left. exists mv.2.
        destruct mv, sv. auto.
      * cbn. split; [reflexivity|]. right. destruct mv. auto.
    + intros [Hname [(values & Hmv & Hsv)|[Hsym Hmv]]].
      * left. exists (row_metric r, values). split; [exact Hmv|].
        apply list_elem_of_fmap. exists (row_symbol r, row_value r).
        split; [|exact Hsv]. destruct r; cbn in *. by subst.
      * right. exists (row_metric r, row_value r). split; [|exact Hmv].
        destruct r; cbn in *. by subst.
Qed.

Lemma dict_set_Forall {V} (P : string * V -> Prop) k v d :
  Forall P d -> P (k, v) -> Forall P (dict_set k v d).
Proof.
  intros Hd Hkv. induction Hd as [|[k0 v0] d Hx Hd IH]; cbn.
  - by constructor.
  - destruct (String.eqb k0 k); constructor; auto.
Qed.

Lemma dict_set_key_iff {V} k (v : V) d k' :
  k' ∈ map fst (dict_set k v d) <-> k' = k \/ k' ∈ map fst d.
Proof.
  rewrite dict_set_keys. case_bool_decide as Hk.
  - split; [auto | intros [->|?]; done].
  - rewrite elem_of_app, list_elem_of_singleton. tauto.
Qed.

Lemma symbol_columns_shape per_symbol metrics syms data data' :
  symbol_columns per_symbol metrics syms data = Ok data' ->
  Forall (fun col => length col.2 = length metrics) data ->
  NoDup (map fst data) ->
  Forall (fun col => length col.2 = length metrics) data'
  /\ NoDup (map fst data')
  /\ forall k, k ∈ map fst data' <-> k ∈ map fst data \/ k ∈ syms.
Proof.
  revert data. induction syms as [|s syms IH]; intros data; cbn.
  - intros [= <-] Hlen Hnd. split_and!; try done.
    intros k. rewrite elem_of_nil. tauto.
  - unfold mbind at 1, result_bind at 1.
    destruct (map_result _ metrics) as [col|] eqn:Hcol; [|discriminate].
    intros Hrun Hlen Hnd.
    destruct (IH _ Hrun) as (Hlen' & Hnd' & Hkeys).
    + apply dict_set_Forall; [exact Hlen|]. cbn. by apply map_result_length in Hcol.
    + by apply dict_set_NoDup.
    + split_and!; try done. intros k. rewrite Hkeys, dict_set_key_iff, elem_of_cons. tauto.
Qed.

(** X15: the wide format.  When [_save_strategy_results] gets as far as the
    table, every column of the table has one cell per overall metric, so
    the frame built from it is never ragged; the columns are "metric",
    "overall" and one per symbol of the first metric of by_symbol, each
    label once.  With an empty by_symbol it raises StopIteration, and with
    a key missing KeyError. *)
Theorem save_strategy_results_table results_dir strategy_name results :
  match overall results, by_symbol results with
  | Some totals, Some [] =>
      _save_strategy_results results_dir strategy_name results = Raise StopIteration
  | Some totals, Some (first :: others) =>
      forall path data,
        _save_strategy_results results_dir strategy_name results = Ok (path, data) ->
        Forall (fun col => length col.2 = length totals) data
        /\ NoDup (map fst data)
        /\ forall k, k ∈ map fst data <->
             k = "metric" \/ k = "overall" \/ k ∈ map fst first.2
  | _, _ => _save_strategy_results results_dir strategy_name results = Raise KeyError
  end.
Proof.
  unfold _save_strategy_results, getitem, mbind, result_bind.
  destruct (overall results) as [totals|]; [|by destruct (by_symbol results) as [[]|]].
  assert (exists col, map_result (fun m => match dict_get m totals with
                                           | Some v => Ok v
                                           | None => Raise KeyError
                                           end) (map fst totals) = Ok col
                      /\ length col = length totals) as (col & Hcol & Hlen).
  { destruct (map_result _ (map fst totals)) as [col|e] eqn:Hcol.
    - exists col. split; [reflexivity|]. apply map_result_length in Hcol.
      by rewrite Hcol, length_map.
    - exfalso. clear -Hcol.
      assert (forall ks, Forall (fun k => is_Some (dict_get k totals)) ks ->
                map_result (fun m => match dict_get m totals with
                                     | Some v => Ok v
                                     | None => Raise KeyError
                                     end) ks <> Raise e) as Hall.
      { induction 1 as [|k ks [v Hk] _ IH]; cbn; [discriminate|].
        unfold mbind, result_bind. rewrite Hk.
        destruct (map_result _ ks); [discriminate | done]. }
      apply (Hall (map fst totals)); [|exact Hcol].
      apply Forall_forall. intros k Hk. clear -Hk.
      induction totals as [|[k0 v0] totals IH]; [by apply elem_of_nil in Hk|].
      cbn in *. destruct (String.eqb k0 k) eqn:E; [eauto|].
      apply elem_of_cons in Hk as [->|Hk]; [|auto].
      by rewrite String.eqb_refl in E. }
  rewrite Hcol.
  destruct (by_symbol results) as [[|first others]|]; [reflexivity| |reflexivity].
  intros path data.
  destruct (symbol_columns _ _ _ _) as [data'|] eqn:Hrun; [|discriminate].
  intros [= <- <-].
  apply symbol_columns_shape in Hrun as (Hshape & Hnd & Hkeys).
  - rewrite length_map in Hshape. split_and!; try done.
    intros k. rewrite Hkeys. cbn. rewrite !elem_of_cons, elem_of_nil. tauto.
  - cbn. repeat constructor; cbn; by rewrite ?length_map.
  - cbn. repeat constructor; rewrite ?elem_of_cons, ?elem_of_nil; intuition discriminate.
Qed.

(** ** SMA crossover signals *)

Lemma float_ltb_irrefl a : float_ltb a a = false.
Proof.
  destruct a as [|[|]|x]; simpl; try done.
  by rewrite (proj1 (Qeq_alt x x) (Qeq_refl x)).
Qed.

Section SMAFacts.
Context `{Rolling}.

Lemma signals_loop_Forall (P : string * DataFrame -> Prop) self items signals signals' :
  signals_loop self items signals = Ok signals' ->
  Forall P signals ->
  (forall symbol data sig, (symbol, data) ∈ items ->
     symbol_signals self data = Ok sig -> P (symbol, sig)) ->
  Forall P signals'.
Proof.
  revert signals. induction items as [|[symbol data] items IH]; intros signals; cbn.
  - by intros [= <-].
  - unfold mbind, result_bind.
    destruct (symbol_signals self data) as [sig|] eqn:Hsig; [|discriminate].
    intros Hrun Hall Hstep. eapply IH; [exact Hrun| |].
    + apply dict_set_Forall; [exact Hall|]. eapply Hstep; [left | exact Hsig].
    + intros s d sg Hin. apply Hstep. by right.
Qed.

(** X16: the signals of the SMA crossover.  For every symbol,
    [generate_signals] yields a frame over the index of the symbol's price
    frame with an entries and an exits column of zeros and ones, one cell
    per bar when the price frame is well formed; no bar carries both an
    entry and an exit, and with equal windows no bar carries either. *)
Theorem sma_signals_never_conflict (self : SMACrossoverStrategy) signals :
  generate_signals self = Ok signals ->
  Forall (fun item => wf_frame item.2) (price_data self) ->
  Forall (fun item : string * DataFrame =>
            exists data entries exits,
              (item.1, data) ∈ price_data self
              /\ index item.2 = index data
              /\ columns item.2 = [("entries", IntCol entries); ("exits", IntCol exits)]
              /\ length entries = length (index data)
              /\ length exits = length (index data)
              /\ Forall2 (fun e x => (e = 0 /\ x = 0) \/ (e = 1 /\ x = 0) \/ (e = 0 /\ x = 1))
                   entries exits
              /\ (short_window self = long_window self ->
                  Forall (fun e => e = 0) entries /\ Forall (fun x => x = 0) exits))
         signals.
Proof.
  unfold generate_signals. intros Hrun Hwf.
  eapply signals_loop_Forall; [exact Hrun | constructor |].
  intros symbol data sig Hin. unfold symbol_signals, getitem, mbind, result_bind.
  destruct (get_column (columns data) "close") as [close|] eqn:Hclose; [|discriminate].
  destruct (rolling_mean (short_window self) close) as [short_sma|] eqn:Hshort; [|discriminate].
  destruct (rolling_mean (long_window self) close) as [long_sma|] eqn:Hlong; [|discriminate].
  intros [= <-]. cbn.
  apply rolling_mean_length in Hshort as Hls. apply rolling_mean_length in Hlong as Hll.
  rewrite Forall_forall in Hwf. specialize (Hwf _ Hin). cbn in Hwf.
  unfold wf_frame in Hwf. rewrite Forall_forall in Hwf.
  specialize (Hwf _ (get_column_elem_of _ _ _ Hclose)). cbn in Hwf.
  exists data, (gt_astype_int short_sma long_sma), (lt_astype_int short_sma long_sma).
  unfold gt_astype_int, lt_astype_int. split_and!; try done.
  - rewrite length_zip_with. lia.
  - rewrite length_zip_with. lia.
  - assert (length short_sma = length long_sma) as Hlen by lia. clear -Hlen.
    revert long_sma Hlen. induction short_sma as [|a short_sma IH];
      intros [|b long_sma] Hlen; cbn in *; try discriminate; constructor.
    + destruct (float_ltb b a) eqn:Hba.
      * rewrite (float_ltb_asym _ _ Hba). auto.
      * destruct (float_ltb a b); auto.
    + apply IH. lia.
  - intros Hsame. rewrite Hsame in Hshort. rewrite Hshort in Hlong. injection Hlong as <-.
    clear. split; induction short_sma as [|a l IH]; cbn; constructor;
      rewrite ?float_ltb_irrefl; auto.
Qed.
End SMAFacts.

(** ** The validator, further *)

Lemma object_lt0_any_TypeError xs :
  object_lt0_any xs = Raise TypeError ->
  exists v, v ∈ xs /\ py_lt0 v = Raise TypeError.
Proof.
  induction xs as [|v xs IH]; cbn; [discriminate|].
  destruct (py_lt0 v) as [b|e] eqn:Hv.
  - destruct (object_lt0_any xs) as [bs|e]; [discriminate|].
    intros [= ->]. destruct (IH eq_refl) as (v' & Hin & Hv'). exists v'. split; [by right|done].
  - intros [= ->]. exists v. split; [left|done].
Qed.

Lemma df_lt0_any_present cols names :
  Forall (fun n => is_Some (get_column cols n)) names ->
  forall e, df_lt0_any cols names = Raise e ->
    e = TypeError /\ exists n xs, n ∈ names /\ get_column cols n = Some (ObjectCol xs)
                                  /\ object_lt0_any xs = Raise TypeError.
Proof.
  induction 1 as [|n names [c Hc] _ IH]; cbn; [discriminate|].
  intros e. rewrite Hc.
  destruct (column_lt0_any c) as [b|e0] eqn:Hb.
  - destruct (df_lt0_any cols names) as [bs|e1]; [discriminate|].
    intros [= ->]. destruct (IH e eq_refl) as (-> & n' & xs & Hin & Hget & Hraise).
    split; [done|]. exists n', xs. split_and!; [by right|done|done].
  - intros [= ->]. destruct c as [xs|xs|xs]; cbn in Hb; try discriminate.
    pose proof (object_lt0_any_raises _ _ Hb) as ->.
    split; [done|]. exists n, xs. split_and!; [left|done|done].
Qed.

Lemma NoDup_not_duplicated ix : NoDup ix -> duplicated_any ix = false.
Proof.
  induction 1 as [|t ix Ht _ IH]; cbn; [reflexivity|].
  by rewrite IH, bool_decide_eq_false_2.
Qed.

Lemma df_lt0_any_all_false cols names :
  Forall (fun n => exists c, get_column cols n = Some c /\ column_lt0_any c = Ok false) names ->
  df_lt0_any cols names = Ok false.
Proof.
  induction 1 as [|n names (c & Hc & Hlt) _ IH]; cbn; [reflexivity|].
  by rewrite Hc, Hlt, IH.
Qed.

(** X17: the validator is complete for its checks.  A frame that has a row,
    holds no NaN or missing cell, has the five required columns as int or
    float columns without a negative value, and repeats no timestamp is
    accepted. *)
Theorem validate_data_complete df symbol :
  index df <> [] ->
  df_isna_any df = false ->
  (forall name, name ∈ required_columns ->
     exists c, get_column (columns df) name = Some c
               /\ dtype_is_float_or_int c = true
               /\ column_lt0_any c = Ok false) ->
  NoDup (index df) ->
  _validate_data df symbol = Ok tt.
Proof.
  intros Hrows Hna Hcols Hnd. unfold _validate_data.
  assert (df_empty df = false) as ->.
  { unfold df_empty. destruct (index df); [done|].
    destruct (Hcols "open") as (c & Hc & _); [left|].
    destruct (columns df); [discriminate | reflexivity]. }
  assert (forallb (fun n => bool_decide (is_Some (get_column (columns df) n)))
            required_columns = true) as ->.
  { apply forallb_forall. intros n Hn%list_elem_of_In.
    destruct (Hcols n Hn) as (c & -> & _). apply bool_decide_eq_true_2. eauto. }
  cbn [negb]. rewrite Hna.
  rewrite (df_lt0_any_all_false (columns df) required_columns).
  - rewrite (NoDup_not_duplicated _ Hnd).
    assert (forallb (fun n => match get_column (columns df) n with
                              | Some c => dtype_is_float_or_int c
                              | None => false
                              end) required_columns = true) as ->; [|reflexivity].
    apply forallb_forall. intros n Hn%list_elem_of_In.
    by destruct (Hcols n Hn) as (c & -> & -> & _).
  - apply Forall_forall. intros n Hn. destruct (Hcols n Hn) as (c & Hc & _ & Hlt). eauto.
Qed.

Lemma validate_data_complete_witness : _validate_data unsorted_frame "AAABTC" = Ok tt.
Proof.
  apply (validate_data_complete unsorted_frame "AAABTC").
  - discriminate.
  - reflexivity.
  - intros name Hname. unfold required_columns in Hname.
    repeat (apply elem_of_cons in Hname as [->|Hname];
            [eexists; split_and!; reflexivity|]).
    by apply elem_of_nil in Hname.
  - repeat constructor; rewrite ?elem_of_cons, ?elem_of_nil; intuition discriminate.
Defined.

(** X18: the errors of the validator.  It raises nothing but
    DataValidationError and TypeError, and TypeError only on a frame that
    passed the emptiness, presence and NaN checks and has a required column
    of object dtype holding a string. *)
Theorem validate_data_error_taxonomy df symbol e :
  _validate_data df symbol = Raise e ->
  e = DataValidationError
  \/ (e = TypeError
      /\ df_isna_any df = false
      /\ exists name xs s,
           name ∈ required_columns
           /\ get_column (columns df) name = Some (ObjectCol xs)
           /\ PStr s ∈ xs).
Proof.
  unfold _validate_data.
  destruct (df_empty df); [intros [= <-]; auto|].
  destruct (forallb (fun n => bool_decide (is_Some (get_column (columns df) n)))
             required_columns) eqn:Hpresent; cbn [negb]; [|intros [= <-]; auto].
  destruct (df_isna_any df) eqn:Hna; [intros [= <-]; auto|].
  destruct (df_lt0_any (columns df) required_columns) as [[|]|e0] eqn:Hneg.
  - intros [= <-]; auto.
  - destruct (duplicated_any (index df)); [intros [= <-]; auto|].
    destruct (negb _); [intros [= <-]; auto | discriminate].
  - intros [= <-]. right.
    destruct (df_lt0_any_present (columns df) required_columns) with (e := e0)
      as (-> & name & xs & Hname & Hget & Hraise); [|exact Hneg|].
    { apply Forall_forall. intros n Hn. rewrite forallb_forall in Hpresent.
      specialize (Hpresent n (proj1 (list_elem_of_In _ _) Hn)).
      by apply bool_decide_eq_true_1 in Hpresent. }
    split; [done|]. split; [done|].
    apply object_lt0_any_TypeError in Hraise as (v & Hin & Hv).
    destruct v as [| | |s]; cbn in Hv; try discriminate.
    + exfalso. unfold df_isna_any in Hna.
      rewrite <- not_true_iff_false, existsb_exists in Hna. apply Hna.
      exists (name, ObjectCol xs). split.
      * apply list_elem_of_In. by apply get_column_elem_of.
      * cbn. apply existsb_exists. exists PNone.
        split; [by apply list_elem_of_In | done].
    + exists name, xs, s. done.
Qed.

Lemma validate_data_error_taxonomy_witness :
  TypeError = DataValidationError
  \/ (TypeError = TypeError
      /\ df_isna_any text_frame = false
      /\ exists name xs s,
           name ∈ required_columns
           /\ get_column (columns text_frame) name = Some (ObjectCol xs)
           /\ PStr s ∈ xs).
Proof.
  apply (validate_data_error_taxonomy text_frame "CCCBTC" TypeError). reflexivity.
Defined.

(** ** The further properties at work on the scenarios *)

(** X4, on BBBBTC, which the provider fails on. *)
Lemma failed_load_leaves_cache_untouched_witness :
  fs (_load_symbol_data demo_loader "BBBBTC"
        (demo_world [(cache_file "AAABTC", Parquet valid_frame)] false)).2
    = {[ cache_file "AAABTC" := Parquet valid_frame ]}
  /\ cache_writes
       (io (_load_symbol_data demo_loader "BBBBTC"
              (demo_world [(cache_file "AAABTC", Parquet valid_frame)] false)).2) = [].
Proof.
  apply (failed_load_leaves_cache_untouched demo_loader "BBBBTC"
           (demo_world [(cache_file "AAABTC", Parquet valid_frame)] false) NetworkError).
  vm_compute. reflexivity.
Defined.

(** X5, on AAABTC with an empty, writable cache. *)
Lemma miss_then_hit_witness :
  let w1 := (_load_symbol_data demo_loader "AAABTC" (demo_world [] false)).2 in
  fs w1 !! cache_file "AAABTC" = Some (Parquet fetched_frame)
  /\ provider_calls (io w1) = ["AAABTC"]
  /\ exists w2, _load_symbol_data demo_loader "AAABTC" w1 = (Ok fetched_frame, w2)
       /\ provider_calls (io w2) = provider_calls (io w1)
       /\ fs w2 = fs w1.
Proof.
  apply (miss_then_hit demo_loader "AAABTC" (demo_world [] false) fetched_frame
           (_load_symbol_data demo_loader "AAABTC" (demo_world [] false)).2).
  - intros cached. vm_compute. discriminate.
  - reflexivity.
  - vm_compute. reflexivity.
Defined.


(** X8, on the two USDT tickers with a limit of one. *)
Lemma liquid_pairs_are_ranked_matches_witness :
  ["AAAUSDT"] <> []
  /\ (0 <= 1 -> Z.of_nat (length ["AAAUSDT"]) <= 1)
  /\ exists tickers relevant ranked rest,
       with_client demo_loader get_ticker = Ok tickers
       /\ Forall2 (fun t p => p.1 = ticker_symbol t /\ py_float (quoteVolume t) = Ok p.2)
            (filter (fun t => endswith (ticker_symbol t) "USDT" = true) tickers)
            relevant
       /\ ranked ++ rest ≡ₚ relevant
       /\ never_ascends (map snd (ranked ++ rest)) = true
       /\ ["AAAUSDT"] = map fst ranked.
Proof.
  apply (liquid_pairs_are_ranked_matches demo_loader "USDT" 1 empty_world ["AAAUSDT"]).
  vm_compute. reflexivity.
Defined.

(** X11, on the batch of the three demo symbols. *)
Lemma result_keys_are_listed_symbols_witness :
  "AAABTC" ∈ symbols demo_base.
Proof.
  change ("AAABTC" ∈ symbols (base demo_loader)).
  apply (result_keys_are_listed_symbols demo_loader
           (demo_world [(cache_file "CCCBTC", Parquet valid_frame)] false)
           (match (load_historical_data demo_loader
                     (demo_world [(cache_file "CCCBTC", Parquet valid_frame)] false)).1 with
            | Ok data => data
            | Raise _ => ∅
            end)
           "AAABTC" fetched_frame).
  - vm_compute. reflexivity.
  - vm_compute. reflexivity.
Defined.

(** X12, with valid cache entries for all three demo symbols. *)
Lemma all_cached_batch_skips_provider_witness :
  let w := demo_world [(cache_file "AAABTC", Parquet valid_frame);
                       (cache_file "BBBBTC", Parquet valid_frame);
                       (cache_file "CCCBTC", Parquet unsorted_frame)] false in
  let cached s := if String.eqb s "CCCBTC" then unsorted_frame else valid_frame in
  exists data w',
    load_historical_data demo_loader w = (Ok data, w')
    /\ fs w' = fs w
    /\ provider_calls (io w') = provider_calls (io w)
    /\ cache_writes (io w') = cache_writes (io w)
    /\ forall s, data !! s =
         if bool_decide (s ∈ symbols (base demo_loader)) then Some (cached s) else None.
Proof.
  intros w cached.
  apply (all_cached_batch_skips_provider demo_loader cached w).
  - discriminate.
  - intros s Hs. cbn in Hs.
    repeat (apply elem_of_cons in Hs as [->|Hs]; [vm_compute; auto|]).
    by apply elem_of_nil in Hs.
Defined.

(** X16, on one symbol with windows 1 and 2. *)
Lemma sma_signals_never_conflict_witness :
  generate_signals demo_strategy
    = Ok [("AAABTC", {| index := [Ts 60000; Ts 120000];
                        columns := [("entries", IntCol [0; 1]); ("exits", IntCol [0; 0])] |})]
  /\ Forall (fun item : string * DataFrame =>
            exists data entries exits,
              (item.1, data) ∈ price_data demo_strategy
              /\ index item.2 = index data
              /\ columns item.2 = [("entries", IntCol entries); ("exits", IntCol exits)]
              /\ length entries = length (index data)
              /\ length exits = length (index data)
              /\ Forall2 (fun e x => (e = 0 /\ x = 0) \/ (e = 1 /\ x = 0) \/ (e = 0 /\ x = 1))
                   entries exits
              /\ (short_window demo_strategy = long_window demo_strategy ->
                  Forall (fun e => e = 0) entries /\ Forall (fun x => x = 0) exits))
       [("AAABTC", {| index := [Ts 60000; Ts 120000];
                      columns := [("entries", IntCol [0; 1]); ("exits", IntCol [0; 0])] |})].
Proof.
  split; [vm_compute; reflexivity|].
  apply (sma_signals_never_conflict demo_strategy).
  - vm_compute. reflexivity.
  - repeat constructor.
Defined.
